(** * Multipart form builder of the image-editing client

    A shallow embedding of the form builder ([DefaultFormBuilder]) and of
    the image-edit endpoints that drive it, together with the parts of the
    Go standard library they delegate to ([strings.Replacer],
    [path/filepath.Base], [strconv.Itoa], [io.Copy], [textproto.MIMEHeader]
    and [mime/multipart.Writer]).

    Go strings are byte sequences: they are [string]s here, one [ascii]
    per byte.  An [error] is [None] for [nil] and [Some msg] otherwise. *)

From Stdlib Require Import String Ascii List Bool Arith ZArith Lia.
From Stdlib Require Import DecimalString DecimalPos DecimalZ.
Import ListNotations.

Local Open Scope list_scope.
Local Open Scope string_scope.

(** ** Bytes and strings *)

Definition error := option string.

Definition dquote : ascii := "034"%char.
Definition backslash : ascii := "092"%char.
Definition slash : ascii := "047"%char.

Definition DQ : string := String dquote EmptyString.
Definition BS : string := String backslash EmptyString.
Definition CRLF : string := String "013"%char (String "010"%char EmptyString).

(** ** Package strings *)

Module strings.

(** [strings.ContainsAny s chars] and [strings.Contains s sub]. *)
Fixpoint mem_char (c : ascii) (chars : string) : bool :=
  match chars with
  | EmptyString => false
  | String d chars' => Ascii.eqb c d || mem_char c chars'
  end.

Fixpoint ContainsAny (s chars : string) : bool :=
  match s with
  | EmptyString => false
  | String c s' => mem_char c chars || ContainsAny s' chars
  end.

Fixpoint Contains (s sub : string) : bool :=
  String.prefix sub s ||
  match s with
  | EmptyString => false
  | String _ s' => Contains s' sub
  end.

(** [strings.Replacer]:
    [strings.NewReplacer old1 new1 old2 new2 ...] scans the target from
    left to right; at each position the first pair, in argument order,
    whose old string occurs there is applied and the scan resumes after
    the occurrence; a byte where nothing matches is copied.  Pairs with an
    empty old string are not used by this program and are skipped. *)

Definition Replacer := list (string * string).

Definition NewReplacer (oldnew : list (string * string)) : Replacer := oldnew.

Fixpoint lookup (r : Replacer) (s : string) : option (string * string) :=
  match r with
  | [] => None
  | (old, new) :: r' =>
      if negb (String.eqb old EmptyString) && String.prefix old s
      then Some (old, new)
      else lookup r' s
  end.

(** [skip] counts the bytes of a matched occurrence still to be passed. *)
Fixpoint replaceFrom (r : Replacer) (skip : nat) (s : string) : string :=
  match s with
  | EmptyString => EmptyString
  | String c s' =>
      match skip with
      | S k => replaceFrom r k s'
      | O =>
          match lookup r s with
          | Some (old, new) => new ++ replaceFrom r (String.length old - 1) s'
          | None => String c (replaceFrom r 0 s')
          end
      end
  end.

Definition Replace (r : Replacer) (s : string) : string := replaceFrom r 0 s.

End strings.

(** ** Package path/filepath (slash-separated paths, no volume name) *)

Module filepath.

Definition IsPathSeparator (c : ascii) : bool := Ascii.eqb c slash.

(** The loop [for len(path) > 0 && IsPathSeparator(path[len(path)-1])]. *)
Fixpoint stripTrailingSeparators (path : string) : string :=
  match path with
  | EmptyString => EmptyString
  | String c path' =>
      match stripTrailingSeparators path' with
      | EmptyString => if IsPathSeparator c then EmptyString else String c EmptyString
      | t => String c t
      end
  end.

(** [path[i+1:]] for the last index [i] holding a separator, if any. *)
Fixpoint afterLastSeparator (path : string) : option string :=
  match path with
  | EmptyString => None
  | String c path' =>
      match afterLastSeparator path' with
      | Some t => Some t
      | None => if IsPathSeparator c then Some path' else None
      end
  end.

Definition Base (path : string) : string :=
  if String.eqb path EmptyString then "."
  else
    let path := stripTrailingSeparators path in
    let path := match afterLastSeparator path with
                | Some t => t
                | None => path
                end in
    if String.eqb path EmptyString then String slash EmptyString else path.

End filepath.

(** ** Package strconv *)

Module strconv.

Definition Itoa (n : Z) : string := NilZero.string_of_int (Z.to_int n).

End strconv.

(** ** Package io

    An [io.Writer] is a state with a [Write] that returns the new state,
    the number of bytes accepted and an error.  An [io.Reader] is given by
    what its successive [Read] calls deliver: some chunks of bytes and
    then the final status, [None] for [io.EOF]. *)

Module io.

Class Writer (W : Type) := Write : W -> string -> W * (nat * error).

Record Reader := { chunks : list string; final : error }.

Definition ErrShortWrite : string := "short write".
Definition errInvalidWrite : string := "invalid write result".

(** The read/write loop of [io.Copy]: a chunk is written as soon as it is
    read; the first write error or short write stops the loop, and so does
    the final status of the source, which is reported unless it is EOF.
    A source that writes itself ([io.WriterTo]) chooses its chunks. *)
Fixpoint copyLoop {D : Type} `{Writer D} (dst : D) (chunks : list string)
    (final : error) (written : nat) : D * (nat * error) :=
  match chunks with
  | [] => (dst, (written, final))
  | buf :: chunks' =>
      let nr := String.length buf in
      if Nat.eqb nr 0 then copyLoop dst chunks' final written
      else
        let '(dst', (nw, ew)) := Write dst buf in
        let '(nw, ew) :=
          if Nat.ltb nr nw
          then (0, match ew with None => Some errInvalidWrite | _ => ew end)
          else (nw, ew) in
        match ew with
        | Some _ => (dst', (written + nw, ew))
        | None =>
            if Nat.eqb nr nw then copyLoop dst' chunks' final (written + nw)
            else (dst', (written + nw, Some ErrShortWrite))
        end
  end.

Definition Copy {D : Type} `{Writer D} (dst : D) (src : Reader)
    : D * (nat * error) :=
  copyLoop dst (chunks src) (final src) 0.

End io.

(** ** Package bytes: a [bytes.Buffer] used as a sink accepts every write *)

Module bytes.

Definition Buffer := string.

#[global] Instance Buffer_Writer : io.Writer Buffer :=
  fun b p => (b ++ p, (String.length p, None)).

(** [bytes.Buffer.WriteTo]: the whole content goes out in one [Write];
    accepting fewer bytes without an error is a short write. *)
Definition WriteTo {W : Type} `{io.Writer W} (b : Buffer) (dst : W)
    : W * error :=
  let nBytes := String.length b in
  if Nat.eqb nBytes 0 then (dst, None)
  else
    let '(dst', (m, e)) := io.Write dst b in
    match e with
    | Some _ => (dst', e)
    | None => if Nat.eqb m nBytes then (dst', None)
              else (dst', Some io.ErrShortWrite)
    end.

End bytes.

(** ** Package os: an open file is its name, as presented to [Open], and
    the bytes it delivers when read *)

Module os.

Record File := { Name : string; contents : io.Reader }.

End os.

(** ** Package encoding/hex *)

Module hex.

Definition hextable : string := "0123456789abcdef".

Definition digit (n : nat) : ascii :=
  match String.get n hextable with
  | Some c => c
  | None => "0"%char
  end.

Fixpoint EncodeToString (src : string) : string :=
  match src with
  | EmptyString => EmptyString
  | String c src' =>
      let v := nat_of_ascii c in
      String (digit (v / 16)) (String (digit (v mod 16)) (EncodeToString src'))
  end.

End hex.

(** ** Package net/textproto

    A [MIMEHeader] maps a key to its values.  [multipart.Writer.CreatePart]
    walks the keys in sorted order, so the map is kept as an association
    list sorted by key.  The keys this program sets are in canonical form
    already, where [CanonicalMIMEHeaderKey] is the identity. *)

Module textproto.

Definition MIMEHeader := list (string * list string).

Definition make : MIMEHeader := [].

Fixpoint Set_ (h : MIMEHeader) (key value : string) : MIMEHeader :=
  match h with
  | [] => [(key, [value])]
  | (k, vs) :: h' =>
      match String.compare key k with
      | Lt => (key, [value]) :: (k, vs) :: h'
      | Eq => (key, [value]) :: h'
      | Gt => (k, vs) :: Set_ h' key value
      end
  end.

Fixpoint Values (h : MIMEHeader) (key : string) : list string :=
  match h with
  | [] => []
  | (k, vs) :: h' => if String.eqb k key then vs else Values h' key
  end.

End textproto.

(** ** Package mime/multipart: the [Writer]

    The writer holds the sink, the boundary and the part it handed out
    last.  A part remembers whether it was closed and the last error of a
    write through it. *)

Module multipart.

Record part := { closed : bool; we : error }.

Record Writer (W : Type) :=
  { w : W; boundary : string; lastpart : option part }.
Arguments w {W}.
Arguments boundary {W}.
Arguments lastpart {W}.

(** The [*part] that [CreatePart] returns is the writer's [lastpart] and
    points back to the writer, so what is reachable from it is the writer
    as a whole.  A part leaves [lastpart] only by being closed: a handle
    that finds no [lastpart] is a closed part. *)
Record partWriter (W : Type) := { mw : Writer W }.
Arguments mw {W}.

Inductive created (W : Type) :=
| Part (p : partWriter W)
| Failed (mw : Writer W) (err : string).
Arguments Part {W}.
Arguments Failed {W}.

Definition randomBoundary (buf : string) : string := hex.EncodeToString buf.

(** The escaper of the package: a backslash before a backslash and before
    a double quote, and percent encoding for a carriage return and for a
    line feed.  The form builder has a copy of the first two pairs. *)
Definition quoteEscaper : strings.Replacer :=
  strings.NewReplacer
    [(BS, BS ++ BS); (DQ, BS ++ DQ);
     (String "013"%char EmptyString, "%0D");
     (String "010"%char EmptyString, "%0A")].

Definition escapeQuotes (s : string) : string :=
  strings.Replace quoteEscaper s.

(** The lines [key: value] of a header, keys in sorted order. *)
Fixpoint headerLines (header : textproto.MIMEHeader) : string :=
  match header with
  | [] => EmptyString
  | (k, vs) :: header' =>
      fold_right (fun v acc => k ++ ": " ++ v ++ CRLF ++ acc)
                 (headerLines header') vs
  end.

Section Writer.

Context {W : Type} `{io.Writer W}.

(** [buf] is what the 30 bytes read from [crypto/rand] were. *)
Definition NewWriter (sink : W) (buf : string) : Writer W :=
  {| w := sink; boundary := randomBoundary buf; lastpart := None |}.

Definition partClose (p : part) : part * error :=
  ({| closed := true; we := we p |}, we p).

#[global] Instance partWriter_Writer : io.Writer (partWriter W) :=
  fun p d =>
    match lastpart (mw p) with
    | Some pt =>
        if closed pt
        then (p, (0, Some "multipart: can't write to finished part"))
        else
          let '(w', (n, err)) := io.Write (w (mw p)) d in
          let pt' := {| closed := closed pt;
                        we := match err with Some _ => err | None => we pt end |} in
          ({| mw := {| w := w'; boundary := boundary (mw p);
                       lastpart := Some pt' |} |}, (n, err))
    | None => (p, (0, Some "multipart: can't write to finished part"))
    end.

Definition CreatePart (mw : Writer W) (header : textproto.MIMEHeader)
    : created W :=
  let closing :=
    match lastpart mw with
    | Some p => let '(p', err) := partClose p in (Some p', err)
    | None => (None, None)
    end in
  let '(lp, err) := closing in
  match err with
  | Some e => Failed {| w := w mw; boundary := boundary mw; lastpart := lp |} e
  | None =>
      let b := match lp with
               | Some _ => CRLF ++ "--" ++ boundary mw ++ CRLF
               | None => "--" ++ boundary mw ++ CRLF
               end in
      let b := b ++ headerLines header ++ CRLF in
      let '(w', err) := bytes.WriteTo b (w mw) in
      match err with
      | Some e => Failed {| w := w'; boundary := boundary mw; lastpart := lp |} e
      | None =>
          Part {| mw := {| w := w'; boundary := boundary mw;
                           lastpart := Some {| closed := false; we := None |} |} |}
      end
  end.

Definition CreateFormFile (mw : Writer W) (fieldname filename : string)
    : created W :=
  let h := textproto.make in
  let h := textproto.Set_ h "Content-Disposition"
             ("form-data; name=" ++ DQ ++ escapeQuotes fieldname ++ DQ ++
              "; filename=" ++ DQ ++ escapeQuotes filename ++ DQ) in
  let h := textproto.Set_ h "Content-Type" "application/octet-stream" in
  CreatePart mw h.

Definition CreateFormField (mw : Writer W) (fieldname : string) : created W :=
  let h := textproto.make in
  let h := textproto.Set_ h "Content-Disposition"
             ("form-data; name=" ++ DQ ++ escapeQuotes fieldname ++ DQ) in
  CreatePart mw h.

Definition WriteField (mw : Writer W) (fieldname value : string)
    : Writer W * error :=
  match CreateFormField mw fieldname with
  | Failed mw' e => (mw', Some e)
  | Part p =>
      let '(p', (_, err)) := io.Write p value in
      (multipart.mw p', err)
  end.

Definition Close (mw : Writer W) : Writer W * error :=
  let closing :=
    match lastpart mw with
    | Some p =>
        let '(p', err) := partClose p in
        match err with
        | Some _ => (Some p', err)
        | None => (None, None)
        end
    | None => (None, None)
    end in
  let '(lp, err) := closing in
  match err with
  | Some _ => ({| w := w mw; boundary := boundary mw; lastpart := lp |}, err)
  | None =>
      let '(w', (_, err)) :=
        io.Write (w mw) (CRLF ++ "--" ++ boundary mw ++ "--" ++ CRLF) in
      ({| w := w'; boundary := boundary mw; lastpart := lp |}, err)
  end.

Definition tspecials : string :=
  "()<>@,;:" ++ BS ++ DQ ++ "/[]?= ".

Definition FormDataContentType (mw : Writer W) : string :=
  let b := boundary mw in
  let b := if strings.ContainsAny b tspecials then DQ ++ b ++ DQ else b in
  "multipart/form-data; boundary=" ++ b.

End Writer.

End multipart.

(** ** Package mime

    [mime.ParseMediaType] is a collaborator of the builder: it takes a
    string and either returns the normalised media type (the parameters
    are not used by this program) or fails.  The builder is verified
    against any such function. *)

Module mime.

Class Parser := ParseMediaType : string -> option string.

(** *** The parameter-free fragment

    For a value without a parameter section and made of ASCII bytes,
    [ParseMediaType] lower-cases and trims it and checks that it reads
    [type] or [type/subtype], both tokens.  [bare] is that check; a value
    with a semicolon or a byte above 127 is outside the fragment and is
    not accepted by [bare]. *)

Definition tspecials : string := "()<>@,;:" ++ BS ++ DQ ++ "/[]?=".

Definition isTokenChar (c : ascii) : bool :=
  let n := nat_of_ascii c in
  Nat.ltb 32 n && Nat.ltb n 127 && negb (strings.mem_char c tspecials).

Fixpoint consumeToken (v : string) : string * string :=
  match v with
  | EmptyString => (EmptyString, EmptyString)
  | String c v' =>
      if isTokenChar c
      then let '(tok, rest) := consumeToken v' in (String c tok, rest)
      else (EmptyString, v)
  end.

Definition checkMediaTypeDisposition (s : string) : bool :=
  let '(typ, rest) := consumeToken s in
  if String.eqb typ EmptyString then false
  else
    match rest with
    | EmptyString => true
    | String c rest' =>
        if negb (Ascii.eqb c slash) then false
        else
          let '(subtype, rest) := consumeToken rest' in
          if String.eqb subtype EmptyString then false
          else String.eqb rest EmptyString
    end.

Definition lower (c : ascii) : ascii :=
  let n := nat_of_ascii c in
  if Nat.leb 65 n && Nat.leb n 90 then ascii_of_nat (n + 32) else c.

Fixpoint ToLower (s : string) : string :=
  match s with
  | EmptyString => EmptyString
  | String c s' => String (lower c) (ToLower s')
  end.

Definition isSpace (c : ascii) : bool :=
  let n := nat_of_ascii c in
  (Nat.leb 9 n && Nat.leb n 13) || Nat.eqb n 32.

Fixpoint TrimLeft (s : string) : string :=
  match s with
  | EmptyString => EmptyString
  | String c s' => if isSpace c then TrimLeft s' else s
  end.

Fixpoint TrimRight (s : string) : string :=
  match s with
  | EmptyString => EmptyString
  | String c s' =>
      match TrimRight s' with
      | EmptyString => if isSpace c then EmptyString else String c EmptyString
      | t => String c t
      end
  end.

Definition TrimSpace (s : string) : string := TrimRight (TrimLeft s).

Fixpoint isASCII (s : string) : bool :=
  match s with
  | EmptyString => true
  | String c s' => Nat.ltb (nat_of_ascii c) 128 && isASCII s'
  end.

Definition bare : Parser :=
  fun v =>
    if strings.mem_char ";"%char v || negb (isASCII v) then None
    else
      let mediatype := TrimSpace (ToLower v) in
      if checkMediaTypeDisposition mediatype then Some mediatype else None.

End mime.

(** * The form builder *)

Section FormBuilder.

Context {W : Type} {Wr : io.Writer W} {P : mime.Parser}.

Record DefaultFormBuilder := { writer : multipart.Writer W }.

(** The boundary comes from [multipart.NewWriter], which draws it from
    the system's random source: [buf] is what that source delivered. *)
Definition NewFormBuilder (body : W) (buf : string) : DefaultFormBuilder :=
  {| writer := multipart.NewWriter body buf |}.

Definition quoteEscaper : strings.Replacer :=
  strings.NewReplacer [(BS, BS ++ BS); (DQ, BS ++ DQ)].

Definition escapeQuotes (s : string) : string :=
  strings.Replace quoteEscaper s.

(** The header [h] that [CreateFormFileReaderWithContentType] assembles
    before it creates the part. *)
Definition fileReaderHeader (fieldname filename contentType : string)
    : textproto.MIMEHeader :=
  let h := textproto.make in
  let h := textproto.Set_ h "Content-Disposition"
             ("form-data; name=" ++ DQ ++ escapeQuotes fieldname ++ DQ ++
              "; filename=" ++ DQ ++ escapeQuotes (filepath.Base filename) ++ DQ) in
  match mime.ParseMediaType contentType with
  | Some mediaType => textproto.Set_ h "Content-Type" mediaType
  | None => h
  end.

Definition CreateFormFileReaderWithContentType (fb : DefaultFormBuilder)
    (fieldname : string) (r : io.Reader) (filename contentType : string)
    : DefaultFormBuilder * error :=
  let h := fileReaderHeader fieldname filename contentType in
  match multipart.CreatePart (writer fb) h with
  | multipart.Failed mw' err => ({| writer := mw' |}, Some err)
  | multipart.Part fieldWriter =>
      let '(fieldWriter', (_, err)) := io.Copy fieldWriter r in
      ({| writer := multipart.mw fieldWriter' |}, err)
  end.

Definition CreateFormFileReader (fb : DefaultFormBuilder)
    (fieldname : string) (r : io.Reader) (filename : string)
    : DefaultFormBuilder * error :=
  CreateFormFileReaderWithContentType fb fieldname r filename EmptyString.

Definition createFormFile (fb : DefaultFormBuilder)
    (fieldname : string) (r : io.Reader) (filename : string)
    : DefaultFormBuilder * error :=
  if String.eqb filename EmptyString
  then (fb, Some "filename cannot be empty")
  else
    match multipart.CreateFormFile (writer fb) fieldname filename with
    | multipart.Failed mw' err => ({| writer := mw' |}, Some err)
    | multipart.Part fieldWriter =>
        let '(fieldWriter', (_, err)) := io.Copy fieldWriter r in
        ({| writer := multipart.mw fieldWriter' |}, err)
    end.

Definition CreateFormFile (fb : DefaultFormBuilder)
    (fieldname : string) (file : os.File) : DefaultFormBuilder * error :=
  createFormFile fb fieldname (os.contents file) (os.Name file).

Definition WriteField (fb : DefaultFormBuilder) (fieldname value : string)
    : DefaultFormBuilder * error :=
  let '(mw', err) := multipart.WriteField (writer fb) fieldname value in
  ({| writer := mw' |}, err).

Definition Close (fb : DefaultFormBuilder) : DefaultFormBuilder * error :=
  let '(mw', err) := multipart.Close (writer fb) in
  ({| writer := mw' |}, err).

Definition FormDataContentType (fb : DefaultFormBuilder) : string :=
  multipart.FormDataContentType (writer fb).

End FormBuilder.

Arguments DefaultFormBuilder W : clear implicits.

(** * The image endpoints *)

Record ImageResponseInputTokensDetails :=
  { TextTokens : Z; ImageTokens : Z }.

Record ImageResponseUsage :=
  { TotalTokens : Z; InputTokens : Z; OutputTokens : Z;
    InputTokensDetails : ImageResponseInputTokensDetails }.

Record ImageResponseDataInner :=
  { URL : string; B64JSON : string; RevisedPrompt : string }.

(** [httpHeader] is declared with the client; it wraps the header map of
    the HTTP response, whose zero value is the empty map. *)
Record ImageResponse :=
  { Created : Z;
    Data : list ImageResponseDataInner;
    Usage : ImageResponseUsage;
    httpHeader : list (string * list string) }.

(** The zero value of [ImageResponse]. *)
Definition zeroImageResponse : ImageResponse :=
  {| Created := 0;
     Data := [];
     Usage := {| TotalTokens := 0; InputTokens := 0; OutputTokens := 0;
                 InputTokensDetails := {| TextTokens := 0; ImageTokens := 0 |} |};
     httpHeader := [] |}.

(** The fields of the two request structures carry the same names; they
    are told apart by the prefixes [ie_] and [mie_].  [Mask] is [None] for
    a nil reader. *)
Record ImageEditRequest :=
  { ie_Image : io.Reader;
    ie_Mask : option io.Reader;
    ie_Prompt : string;
    ie_Model : string;
    ie_N : Z;
    ie_Size : string;
    ie_ResponseFormat : string;
    ie_Quality : string;
    ie_User : string }.

Record MultiImageEditRequest :=
  { mie_Images : list io.Reader;
    mie_Prompt : string;
    mie_Model : string;
    mie_N : Z;
    mie_Size : string;
    mie_ResponseFormat : string;
    mie_Quality : string;
    mie_User : string }.

Definition MethodPost : string := "POST".

Inductive requestOption :=
| withBody (body : bytes.Buffer)
| withContentType (contentType : string).

Inductive fullURLOption :=
| withModel (model : string).

Section Client.

(** The types of [context.Context] and of [*http.Request]. *)
Variables (Ctx Request : Type).

Context {P : mime.Parser}.

(** The collaborators of the endpoints are declared with the client and
    are taken as they come: the factory of form builders, the URL builder,
    the constructor of requests and the HTTP dispatcher, which decodes the
    reply into the response it is given.  The factory binds the builder to
    the buffer it receives, so that buffer is read back from the builder's
    sink. *)
Record Client :=
  { createFormBuilder : bytes.Buffer -> DefaultFormBuilder bytes.Buffer;
    fullURL : string -> list fullURLOption -> string;
    newRequest : Ctx -> string -> string -> list requestOption -> Request + string;
    sendRequest : Request -> ImageResponse -> ImageResponse * error }.

(** What an endpoint asked of the client's collaborators, in order. *)
Inductive Call :=
| CreateFormBuilderCall (body : bytes.Buffer)
| NewRequestCall (method url : string) (opts : list requestOption)
| SendRequestCall (req : Request).

Record Result :=
  { response : ImageResponse; err : error; calls : list Call }.

(** A builder call followed by [if err != nil { return }]. *)
Definition step :=
  DefaultFormBuilder bytes.Buffer -> DefaultFormBuilder bytes.Buffer * error.

Definition skip : step := fun b => (b, None).

Definition andThen (f g : step) : step :=
  fun b =>
    let '(b', err) := f b in
    match err with
    | Some _ => (b', err)
    | None => g b'
    end.

Infix ">>" := andThen (at level 61, left associativity).

(** The calls of [CreateEditImage] on the builder, each followed by its
    [if err != nil { return }]. *)
Definition editForm (request : ImageEditRequest) : step :=
  (fun b => CreateFormFileReaderWithContentType b "image"
              (ie_Image request) EmptyString "image/png") >>
  match ie_Mask request with
  | Some mask => fun b => CreateFormFileReader b "mask" mask EmptyString
  | None => skip
  end >>
  (fun b => WriteField b "prompt" (ie_Prompt request)) >>
  (fun b => WriteField b "n" (strconv.Itoa (ie_N request))) >>
  (fun b => WriteField b "size" (ie_Size request)) >>
  (if String.eqb (ie_ResponseFormat request) EmptyString then skip
   else fun b => WriteField b "response_format" (ie_ResponseFormat request)) >>
  Close.

Definition CreateEditImage (c : Client) (ctx : Ctx)
    (request : ImageEditRequest) : Result :=
  let body : bytes.Buffer := EmptyString in
  let builder := createFormBuilder c body in
  let '(builder, err) := editForm request builder in
  match err with
  | Some _ =>
      {| response := zeroImageResponse; err := err;
         calls := [CreateFormBuilderCall body] |}
  | None =>
      let url := fullURL c "/images/edits" [withModel (ie_Model request)] in
      let opts := [withBody (multipart.w (writer builder));
                   withContentType (FormDataContentType builder)] in
      match newRequest c ctx MethodPost url opts with
      | inr e =>
          {| response := zeroImageResponse; err := Some e;
             calls := [CreateFormBuilderCall body;
                       NewRequestCall MethodPost url opts] |}
      | inl req =>
          let '(response, err) := sendRequest c req zeroImageResponse in
          {| response := response; err := err;
             calls := [CreateFormBuilderCall body;
                       NewRequestCall MethodPost url opts;
                       SendRequestCall req] |}
      end
  end.

(** The loop [for _, image := range request.Images]. *)
Fixpoint appendImages (images : list io.Reader) : step :=
  match images with
  | [] => skip
  | image :: images' =>
      (fun b => CreateFormFileReaderWithContentType b "image[]"
                  image EmptyString "image/png") >>
      appendImages images'
  end.

(** The calls of [CreateMultiEditImage] on the builder when there are
    several images. *)
Definition multiEditForm (request : MultiImageEditRequest) : step :=
  appendImages (mie_Images request) >>
  (fun b => WriteField b "prompt" (mie_Prompt request)) >>
  (fun b => WriteField b "n" (strconv.Itoa (mie_N request))) >>
  (fun b => WriteField b "size" (mie_Size request)) >>
  (if String.eqb (mie_ResponseFormat request) EmptyString then skip
   else fun b => WriteField b "response_format" (mie_ResponseFormat request)) >>
  Close.

Definition CreateMultiEditImage (c : Client) (ctx : Ctx)
    (request : MultiImageEditRequest) : Result :=
  match mie_Images request with
  | [] => {| response := zeroImageResponse; err := None; calls := [] |}
  | [image] =>
      CreateEditImage c ctx
        {| ie_Image := image;
           ie_Mask := None;
           ie_Prompt := mie_Prompt request;
           ie_Model := mie_Model request;
           ie_N := mie_N request;
           ie_Size := mie_Size request;
           ie_ResponseFormat := mie_ResponseFormat request;
           ie_Quality := mie_Quality request;
           ie_User := mie_User request |}
  | _ =>
      let body : bytes.Buffer := EmptyString in
      let builder := createFormBuilder c body in
      let '(builder, err) := multiEditForm request builder in
      match err with
      | Some _ =>
          {| response := zeroImageResponse; err := err;
             calls := [CreateFormBuilderCall body] |}
      | None =>
          let url := fullURL c "/images/edits" [withModel (mie_Model request)] in
          let opts := [withBody (multipart.w (writer builder));
                       withContentType (FormDataContentType builder)] in
          match newRequest c ctx MethodPost url opts with
          | inr e =>
              {| response := zeroImageResponse; err := Some e;
                 calls := [CreateFormBuilderCall body;
                           NewRequestCall MethodPost url opts] |}
          | inl req =>
              let '(response, err) := sendRequest c req zeroImageResponse in
              {| response := response; err := err;
                 calls := [CreateFormBuilderCall body;
                           NewRequestCall MethodPost url opts;
                           SendRequestCall req] |}
          end
      end
  end.

End Client.

Arguments CreateEditImage {Ctx Request P} c ctx request.
Arguments CreateMultiEditImage {Ctx Request P} c ctx request.
Arguments createFormBuilder {Ctx Request} c body.
Arguments fullURL {Ctx Request} c suffix opts.
Arguments newRequest {Ctx Request} c ctx method url opts.
Arguments sendRequest {Ctx Request} c req v.
Arguments response {Request} r.
Arguments err {Request} r.
Arguments calls {Request} r.
Arguments CreateFormBuilderCall {Request} body.
Arguments NewRequestCall {Request} method url opts.
Arguments SendRequestCall {Request} req.

Infix ">>" := andThen (at level 61, left associativity).

(** * What the wire format is

    The definitions of this part are not taken from the code: they say
    what is expected on the wire, and the code is compared with them. *)

(** The escape of one byte of a quoted string. *)
Definition escapeByte (c : ascii) : string :=
  if Ascii.eqb c backslash then BS ++ BS
  else if Ascii.eqb c dquote then BS ++ DQ
  else String c EmptyString.

Fixpoint escapeBytes (s : string) : string :=
  match s with
  | EmptyString => EmptyString
  | String c s' => escapeByte c ++ escapeBytes s'
  end.

(** The escape of one byte of a name that goes through the multipart
    package: as above, and percent encoding for a carriage return and for
    a line feed. *)
Definition libEscapeByte (c : ascii) : string :=
  if Ascii.eqb c backslash then BS ++ BS
  else if Ascii.eqb c dquote then BS ++ DQ
  else if Ascii.eqb c "013"%char then "%0D"
  else if Ascii.eqb c "010"%char then "%0A"
  else String c EmptyString.

Fixpoint libEscapeBytes (s : string) : string :=
  match s with
  | EmptyString => EmptyString
  | String c s' => libEscapeByte c ++ libEscapeBytes s'
  end.

(** Decoding of a quoted string: a backslash stands for the byte that
    follows it. *)
Fixpoint unescapeQuotes (s : string) : string :=
  match s with
  | EmptyString => EmptyString
  | String c s' =>
      if Ascii.eqb c backslash
      then match s' with
           | EmptyString => String c EmptyString
           | String d s'' => String d (unescapeQuotes s'')
           end
      else String c (unescapeQuotes s')
  end.

(** The bytes a reader delivers. *)
Definition content (r : io.Reader) : string :=
  fold_right append EmptyString (io.chunks r).

(** One append call on the builder. *)
Inductive Field :=
| FileField (fieldname : string) (file : os.File)
| ReaderField (fieldname : string) (r : io.Reader) (filename : string)
| TypedReaderField (fieldname : string) (r : io.Reader)
    (filename contentType : string)
| PlainField (fieldname value : string).

Definition append_ {W : Type} {Wr : io.Writer W} {P : mime.Parser}
    (fb : DefaultFormBuilder W) (f : Field) : DefaultFormBuilder W * error :=
  match f with
  | FileField fieldname file => CreateFormFile fb fieldname file
  | ReaderField fieldname r filename =>
      CreateFormFileReader fb fieldname r filename
  | TypedReaderField fieldname r filename contentType =>
      CreateFormFileReaderWithContentType fb fieldname r filename contentType
  | PlainField fieldname value => WriteField fb fieldname value
  end.

(** Append calls made one after the other, up to the first that fails. *)
Fixpoint appendAll {W : Type} {Wr : io.Writer W} {P : mime.Parser}
    (fb : DefaultFormBuilder W) (fields : list Field)
    : DefaultFormBuilder W * error :=
  match fields with
  | [] => (fb, None)
  | f :: fields' =>
      let '(fb', err) := append_ fb f in
      match err with
      | Some _ => (fb', err)
      | None => appendAll fb' fields'
      end
  end.

(** The header lines of a part on the wire. *)
Definition dispositionLine (fieldname : string) (filename : option string)
    : string :=
  "Content-Disposition: form-data; name=" ++ DQ ++ escapeBytes fieldname ++ DQ ++
  match filename with
  | Some fn => "; filename=" ++ DQ ++ escapeBytes fn ++ DQ
  | None => EmptyString
  end ++ CRLF.

(** The same line for a name and a file name that went through the
    multipart package. *)
Definition libDispositionLine (fieldname : string) (filename : option string)
    : string :=
  "Content-Disposition: form-data; name=" ++ DQ ++ libEscapeBytes fieldname ++ DQ ++
  match filename with
  | Some fn => "; filename=" ++ DQ ++ libEscapeBytes fn ++ DQ
  | None => EmptyString
  end ++ CRLF.

Definition typeLine (mediaType : option string) : string :=
  match mediaType with
  | Some m => "Content-Type: " ++ m ++ CRLF
  | None => EmptyString
  end.

(** One part on the wire, without the boundary line before it: the header
    lines, an empty line and the bytes of the field.  The file name that
    the code puts on the wire is the last path element for a reader and
    the name of the handle, as it is, for a file.  The names of a reader
    field are escaped by the builder, those of a file field and of a plain
    field by the multipart package. *)
Definition encodedPart {P : mime.Parser} (f : Field) : string :=
  match f with
  | FileField fieldname file =>
      libDispositionLine fieldname (Some (os.Name file)) ++
      typeLine (Some "application/octet-stream") ++ CRLF ++
      content (os.contents file)
  | ReaderField fieldname r filename =>
      dispositionLine fieldname (Some (filepath.Base filename)) ++
      typeLine (mime.ParseMediaType EmptyString) ++ CRLF ++ content r
  | TypedReaderField fieldname r filename contentType =>
      dispositionLine fieldname (Some (filepath.Base filename)) ++
      typeLine (mime.ParseMediaType contentType) ++ CRLF ++ content r
  | PlainField fieldname value =>
      libDispositionLine fieldname None ++ CRLF ++ value
  end.

(** The boundary line before a part: the first one of a body has no line
    break before it. *)
Definition delimiter (b : string) (first : bool) : string :=
  (if first then EmptyString else CRLF) ++ "--" ++ b ++ CRLF.

Definition terminal (b : string) : string :=
  CRLF ++ "--" ++ b ++ "--" ++ CRLF.

(** The parts of a body, each behind its boundary line, in the order of
    the list. *)
Fixpoint wireFrom (b : string) (first : bool) (parts : list string) : string :=
  match parts with
  | [] => EmptyString
  | p :: parts' => delimiter b first ++ p ++ wireFrom b false parts'
  end.

Definition wire (b : string) (parts : list string) : string :=
  wireFrom b true parts.

(** An append call succeeds on a buffer when its source can be read to
    the end and, for a file, when the file has a name. *)
Definition readable (f : Field) : Prop :=
  match f with
  | FileField _ file =>
      os.Name file <> EmptyString /\ io.final (os.contents file) = None
  | ReaderField _ r _ => io.final r = None
  | TypedReaderField _ r _ _ => io.final r = None
  | PlainField _ _ => True
  end.

(** The fields that the two edit endpoints are expected to put in the
    form, in this order: the image or images, the mask if there is one,
    the prompt, the count, the size and the response format if it is not
    empty. *)
Definition responseFormatField (responseFormat : string) : list Field :=
  if String.eqb responseFormat EmptyString then []
  else [PlainField "response_format" responseFormat].

Definition editFields (request : ImageEditRequest) : list Field :=
  (TypedReaderField "image" (ie_Image request) EmptyString "image/png" ::
   match ie_Mask request with
   | Some mask => [ReaderField "mask" mask EmptyString]
   | None => []
   end ++
   [PlainField "prompt" (ie_Prompt request);
    PlainField "n" (strconv.Itoa (ie_N request));
    PlainField "size" (ie_Size request)] ++
   responseFormatField (ie_ResponseFormat request))%list.

Definition imageFields (images : list io.Reader) : list Field :=
  map (fun image => TypedReaderField "image[]" image EmptyString "image/png")
      images.

(** With one image the multi-image endpoint hands over to the single-image
    endpoint, whose image field is called [image]. *)
Definition multiEditFields (request : MultiImageEditRequest) : list Field :=
  (match mie_Images request with
   | [image] => [TypedReaderField "image" image EmptyString "image/png"]
   | images => imageFields images
   end ++
   [PlainField "prompt" (mie_Prompt request);
    PlainField "n" (strconv.Itoa (mie_N request));
    PlainField "size" (mie_Size request)] ++
   responseFormatField (mie_ResponseFormat request))%list.

(** A call on the builder: an append or [Close]. *)
Inductive Op :=
| Append (f : Field)
| CloseOp.

Definition call {W : Type} {Wr : io.Writer W} {P : mime.Parser}
    (fb : DefaultFormBuilder W) (op : Op) : DefaultFormBuilder W * error :=
  match op with
  | Append f => append_ fb f
  | CloseOp => Close fb
  end.

(** Any calls in any order, whatever they return. *)
Fixpoint perform {W : Type} {Wr : io.Writer W} {P : mime.Parser}
    (fb : DefaultFormBuilder W) (ops : list Op) : DefaultFormBuilder W :=
  match ops with
  | [] => fb
  | op :: ops' => perform (fst (call fb op)) ops'
  end.

(** A call is rejected when it returns an error and leaves the sink as it
    was. *)
Definition rejected (before : DefaultFormBuilder bytes.Buffer)
    (res : DefaultFormBuilder bytes.Buffer * error) : Prop :=
  snd res <> None /\
  multipart.w (writer (fst res)) = multipart.w (writer before).

(** A builder on a buffer, by its three components. *)
Definition builderOn (s : bytes.Buffer) (b : string)
    (lp : option multipart.part) : DefaultFormBuilder bytes.Buffer :=
  {| writer := {| multipart.w := s; multipart.boundary := b;
                  multipart.lastpart := lp |} |}.

Definition openPart : multipart.part :=
  {| multipart.closed := false; multipart.we := None |}.

(** The error that closing the last part would report. *)
Definition pending (lp : option multipart.part) : error :=
  match lp with
  | Some p => multipart.we p
  | None => None
  end.

(** No write through the last part has failed. *)
Definition sound (lp : option multipart.part) : Prop := pending lp = None.

(** The last part of a writer after some appends that succeeded. *)
Definition lastAfter (lp : option multipart.part) (fields : list Field)
    : option multipart.part :=
  match fields with
  | [] => lp
  | _ :: _ => Some openPart
  end.

Definition isNone {A : Type} (o : option A) : bool :=
  match o with
  | Some _ => false
  | None => true
  end.

(** The requests with other values for [Quality] and [User]. *)
Definition withQualityUser (q u : string) (request : ImageEditRequest)
    : ImageEditRequest :=
  {| ie_Image := ie_Image request;
     ie_Mask := ie_Mask request;
     ie_Prompt := ie_Prompt request;
     ie_Model := ie_Model request;
     ie_N := ie_N request;
     ie_Size := ie_Size request;
     ie_ResponseFormat := ie_ResponseFormat request;
     ie_Quality := q;
     ie_User := u |}.

Definition withQualityUserMulti (q u : string)
    (request : MultiImageEditRequest) : MultiImageEditRequest :=
  {| mie_Images := mie_Images request;
     mie_Prompt := mie_Prompt request;
     mie_Model := mie_Model request;
     mie_N := mie_N request;
     mie_Size := mie_Size request;
     mie_ResponseFormat := mie_ResponseFormat request;
     mie_Quality := q;
     mie_User := u |}.

(** ** Sample inputs *)

Definition sampleReader (data : string) : io.Reader :=
  {| io.chunks := [data]; io.final := None |}.

(** A client whose factory is [NewFormBuilder], with [buf] for the random
    bytes, and whose other collaborators do the least. *)
Definition sampleClient (buf : string) : Client unit string :=
  {| createFormBuilder := fun body => NewFormBuilder body buf;
     fullURL := fun suffix _ => suffix;
     newRequest := fun _ method url _ => inl (method ++ " " ++ url);
     sendRequest := fun _ v => (v, None) |}.

Definition sampleEdit : ImageEditRequest :=
  {| ie_Image := sampleReader "PNG1";
     ie_Mask := Some (sampleReader "MASK");
     ie_Prompt := "a cat";
     ie_Model := "dall-e-2";
     ie_N := 2;
     ie_Size := "256x256";
     ie_ResponseFormat := "url";
     ie_Quality := "hd";
     ie_User := "user-1" |}.

Definition sampleMulti : MultiImageEditRequest :=
  {| mie_Images := [sampleReader "PNG1"; sampleReader "PNG2"; sampleReader "PNG3"];
     mie_Prompt := "a cat";
     mie_Model := "gpt-image-1";
     mie_N := 1;
     mie_Size := "1024x1024";
     mie_ResponseFormat := EmptyString;
     mie_Quality := "high";
     mie_User := "user-1" |}.

(** * The variation endpoint *)

Record ImageVariRequest :=
  { iv_Image : io.Reader;
    iv_Model : string;
    iv_N : Z;
    iv_Size : string;
    iv_ResponseFormat : string;
    iv_User : string }.

Section Variations.

Variables (Ctx Request : Type).

Context {P : mime.Parser}.

(** The calls of [CreateVariImage] on the builder, each followed by its
    [if err != nil { return }]. *)
Definition variForm (request : ImageVariRequest) : step :=
  (fun b => CreateFormFileReader b "image" (iv_Image request) EmptyString) >>
  (fun b => WriteField b "n" (strconv.Itoa (iv_N request))) >>
  (fun b => WriteField b "size" (iv_Size request)) >>
  (fun b => WriteField b "response_format" (iv_ResponseFormat request)) >>
  Close.

Definition CreateVariImage (c : Client Ctx Request) (ctx : Ctx)
    (request : ImageVariRequest) : Result Request :=
  let body : bytes.Buffer := EmptyString in
  let builder := createFormBuilder c body in
  let '(builder, err) := variForm request builder in
  match err with
  | Some _ =>
      {| response := zeroImageResponse; err := err;
         calls := [CreateFormBuilderCall body] |}
  | None =>
      let url := fullURL c "/images/variations" [withModel (iv_Model request)] in
      let opts := [withBody (multipart.w (writer builder));
                   withContentType (FormDataContentType builder)] in
      match newRequest c ctx MethodPost url opts with
      | inr e =>
          {| response := zeroImageResponse; err := Some e;
             calls := [CreateFormBuilderCall body;
                       NewRequestCall MethodPost url opts] |}
      | inl req =>
          let '(response, err) := sendRequest c req zeroImageResponse in
          {| response := response; err := err;
             calls := [CreateFormBuilderCall body;
                       NewRequestCall MethodPost url opts;
                       SendRequestCall req] |}
      end
  end.

End Variations.

Arguments CreateVariImage {Ctx Request P} c ctx request.

(** ** What is expected of the rest *)

(** The fields of a variation form, in order. *)
Definition variFields (request : ImageVariRequest) : list Field :=
  [ReaderField "image" (iv_Image request) EmptyString;
   PlainField "n" (strconv.Itoa (iv_N request));
   PlainField "size" (iv_Size request);
   PlainField "response_format" (iv_ResponseFormat request)].

Definition withUserVari (u : string) (request : ImageVariRequest)
    : ImageVariRequest :=
  {| iv_Image := iv_Image request;
     iv_Model := iv_Model request;
     iv_N := iv_N request;
     iv_Size := iv_Size request;
     iv_ResponseFormat := iv_ResponseFormat request;
     iv_User := u |}.

(** Reading a quoted string from behind its opening quote: a backslash
    quotes the byte after it, the first bare double quote ends the string;
    the result is the string and what follows the closing quote. *)
Fixpoint scanQuoted (s : string) : option (string * string) :=
  match s with
  | EmptyString => None
  | String c s' =>
      if Ascii.eqb c dquote then Some (EmptyString, s')
      else if Ascii.eqb c backslash
      then match s' with
           | EmptyString => None
           | String d s'' =>
               match scanQuoted s'' with
               | Some (v, rest) => Some (String d v, rest)
               | None => None
               end
           end
      else match scanQuoted s' with
           | Some (v, rest) => Some (String c v, rest)
           | None => None
           end
  end.

(** Reading a decimal number, with or without a sign. *)
Definition parseInt (s : string) : option Z :=
  option_map Z.of_int (NilZero.int_of_string s).

(** A name without a path separator. *)
Definition plainName (name : string) : Prop :=
  strings.mem_char slash name = false.

(** The bytes that count double in an escaped string. *)
Fixpoint countEscaped (s : string) : nat :=
  match s with
  | EmptyString => 0
  | String c s' =>
      (if Ascii.eqb c backslash || Ascii.eqb c dquote then 1 else 0) +
      countEscaped s'
  end.





(** A sink with room for a number of bytes: a write that fits is taken
    whole, one that does not is refused. *)
Record limitedWriter := { accepted : string; room : nat }.

#[global] Instance limitedWriter_Writer : io.Writer limitedWriter :=
  fun l d =>
    if Nat.leb (String.length d) (room l)
    then ({| accepted := accepted l ++ d; room := room l - String.length d |},
          (String.length d, None))
    else (l, (0, Some "no space left on device")).

(** A reader that delivers [data] and then fails with [e]. *)
Definition failingReader (data e : string) : io.Reader :=
  {| io.chunks := [data]; io.final := Some e |}.

(** The first field of a list that cannot be read to the end is a reader
    field failing with [e], and the fields before it are readable. *)
Definition sourceError (f : Field) : error :=
  match f with
  | FileField _ file =>
      if String.eqb (os.Name file) EmptyString
      then Some "filename cannot be empty"
      else io.final (os.contents file)
  | ReaderField _ r _ => io.final r
  | TypedReaderField _ r _ _ => io.final r
  | PlainField _ _ => None
  end.

(** What an append leaves in a buffer behind the boundary line: nothing
    when a file has no name, the encoded part otherwise. *)
Definition written {P : mime.Parser} (b : string) (first : bool) (f : Field)
    : string :=
  match f with
  | FileField _ file =>
      if String.eqb (os.Name file) EmptyString then EmptyString
      else delimiter b first ++ encodedPart f
  | _ => delimiter b first ++ encodedPart f
  end.

Definition sampleVari : ImageVariRequest :=
  {| iv_Image := sampleReader "PNG1";
     iv_Model := "dall-e-2";
     iv_N := 2;
     iv_Size := "256x256";
     iv_ResponseFormat := EmptyString;
     iv_User := "user-1" |}.

(** * Strings *)

Lemma append_nil_r (s : string) : s ++ EmptyString = s.
Proof. induction s as [|c s IH]; simpl; [reflexivity | now rewrite IH]. Qed.

Lemma append_assoc (s t u : string) : (s ++ t) ++ u = s ++ (t ++ u).
Proof. induction s as [|c s IH]; simpl; [reflexivity | now rewrite IH]. Qed.

Lemma length_append (s t : string) :
  String.length (s ++ t) = String.length s + String.length t.
Proof. induction s as [|c s IH]; simpl; [reflexivity | now rewrite IH]. Qed.

Lemma prefix_nil (s : string) : String.prefix EmptyString s = true.
Proof. now destruct s. Qed.

(** * The escaper *)

(** At a backslash or a double quote the replacer finds the pair of that
    byte; elsewhere it finds none. *)
Lemma lookup_quoteEscaper (c : ascii) (s : string) :
  strings.lookup quoteEscaper (String c s) =
    if Ascii.eqb c backslash then Some (BS, BS ++ BS)
    else if Ascii.eqb c dquote then Some (DQ, BS ++ DQ)
    else None.
Proof.
  unfold quoteEscaper, strings.NewReplacer, strings.lookup, BS, DQ.
  cbn [String.eqb negb andb String.prefix].
  destruct (ascii_dec backslash c) as [<-|Hb].
  - rewrite prefix_nil, Ascii.eqb_refl. reflexivity.
  - destruct (Ascii.eqb_spec c backslash) as [->|_]; [contradiction|].
    destruct (ascii_dec dquote c) as [<-|Hq].
    + rewrite prefix_nil, Ascii.eqb_refl. reflexivity.
    + destruct (Ascii.eqb_spec c dquote) as [->|_]; [contradiction|].
      reflexivity.
Qed.

Lemma escapeQuotes_cons (c : ascii) (s : string) :
  escapeQuotes (String c s) = escapeByte c ++ escapeQuotes s.
Proof.
  unfold escapeQuotes, strings.Replace.
  cbn [strings.replaceFrom]. rewrite lookup_quoteEscaper. unfold escapeByte.
  destruct (Ascii.eqb c backslash); [reflexivity|].
  destruct (Ascii.eqb c dquote); reflexivity.
Qed.

Lemma escapeQuotes_bytes (s : string) : escapeQuotes s = escapeBytes s.
Proof.
  induction s as [|c s IH]; [reflexivity|].
  rewrite escapeQuotes_cons, IH. reflexivity.
Qed.

Lemma unescape_escapeBytes (s : string) : unescapeQuotes (escapeBytes s) = s.
Proof.
  induction s as [|c s IH]; [reflexivity|].
  cbn [escapeBytes]. unfold escapeByte.
  destruct (Ascii.eqb c backslash) eqn:Eb.
  - apply Ascii.eqb_eq in Eb. subst c. cbn. now rewrite IH.
  - destruct (Ascii.eqb c dquote) eqn:Eq.
    + apply Ascii.eqb_eq in Eq. subst c. cbn. now rewrite IH.
    + cbn [append unescapeQuotes]. rewrite Eb, IH. reflexivity.
Qed.


(** * The builder on a buffer *)

Ltac str_norm :=
  unfold DQ, BS, CRLF;
  repeat (progress (repeat rewrite append_assoc; cbn [append];
                    repeat rewrite append_nil_r)).

Lemma lookup_multipart_quoteEscaper (c : ascii) (s : string) :
  strings.lookup multipart.quoteEscaper (String c s) =
    if Ascii.eqb c backslash then Some (BS, BS ++ BS)
    else if Ascii.eqb c dquote then Some (DQ, BS ++ DQ)
    else if Ascii.eqb c "013"%char
         then Some (String "013"%char EmptyString, "%0D")
    else if Ascii.eqb c "010"%char
         then Some (String "010"%char EmptyString, "%0A")
    else None.
Proof.
  unfold multipart.quoteEscaper, strings.NewReplacer, strings.lookup, BS, DQ.
  cbn [String.eqb negb andb String.prefix].
  destruct (ascii_dec backslash c) as [<-|Hb].
  { rewrite prefix_nil, Ascii.eqb_refl. reflexivity. }
  destruct (Ascii.eqb_spec c backslash) as [->|_]; [contradiction|].
  destruct (ascii_dec dquote c) as [<-|Hq].
  { rewrite prefix_nil, Ascii.eqb_refl. reflexivity. }
  destruct (Ascii.eqb_spec c dquote) as [->|_]; [contradiction|].
  destruct (ascii_dec "013"%char c) as [<-|Hr].
  { rewrite prefix_nil, Ascii.eqb_refl. reflexivity. }
  destruct (Ascii.eqb_spec c "013"%char) as [->|_]; [contradiction|].
  destruct (ascii_dec "010"%char c) as [<-|Hn].
  { rewrite prefix_nil, Ascii.eqb_refl. reflexivity. }
  destruct (Ascii.eqb_spec c "010"%char) as [->|_]; [contradiction|].
  reflexivity.
Qed.

(** The escaper of the multipart package, byte by byte. *)
Lemma multipart_escapeQuotes_bytes (s : string) :
  multipart.escapeQuotes s = libEscapeBytes s.
Proof.
  unfold multipart.escapeQuotes, strings.Replace.
  induction s as [|c s IH]; [reflexivity|].
  cbn [strings.replaceFrom libEscapeBytes].
  rewrite lookup_multipart_quoteEscaper. unfold libEscapeByte.
  destruct (Ascii.eqb c backslash); [now rewrite <- IH|].
  destruct (Ascii.eqb c dquote); [now rewrite <- IH|].
  destruct (Ascii.eqb c "013"%char); [now rewrite <- IH|].
  destruct (Ascii.eqb c "010"%char); now rewrite <- IH.
Qed.

Lemma WriteTo_Buffer (c : ascii) (b : string) (s : bytes.Buffer) :
  bytes.WriteTo (String c b) s = (s ++ String c b, None).
Proof.
  unfold bytes.WriteTo, io.Write, bytes.Buffer_Writer.
  cbn [String.length Nat.eqb]. now rewrite Nat.eqb_refl.
Qed.

(** On a buffer, creating a part with no failed write behind it writes the
    boundary line and the header, and leaves an open part. *)
Lemma CreatePart_Buffer (s b : string) (lp : option multipart.part)
    (h : textproto.MIMEHeader) :
  sound lp ->
  multipart.CreatePart (writer (builderOn s b lp)) h =
    multipart.Part
      {| multipart.mw :=
           writer (builderOn (s ++ delimiter b (isNone lp) ++
                              multipart.headerLines h ++ CRLF) b (Some openPart)) |}.
Proof.
  intro Hs. unfold multipart.CreatePart, builderOn, delimiter.
  cbn [writer multipart.lastpart multipart.w multipart.boundary].
  destruct lp as [p|]; unfold sound in Hs; cbn [pending] in Hs.
  - unfold multipart.partClose. rewrite Hs. cbn [isNone].
    unfold CRLF at 1. cbn [append]. rewrite WriteTo_Buffer.
    unfold CRLF at 3. cbn [append]. reflexivity.
  - cbn [isNone append]. rewrite WriteTo_Buffer. reflexivity.
Qed.

(** A write through an open part of a buffer goes to the buffer. *)
Lemma partWrite_Buffer (s b d : string) :
  io.Write {| multipart.mw := writer (builderOn s b (Some openPart)) |} d =
    ({| multipart.mw := writer (builderOn (s ++ d) b (Some openPart)) |},
     (String.length d, None)).
Proof. reflexivity. Qed.

Lemma copyLoop_Buffer (chunks : list string) (final : error) :
  forall (s b : string) (n : nat),
    io.copyLoop {| multipart.mw := writer (builderOn s b (Some openPart)) |}
                chunks final n =
      ({| multipart.mw :=
            writer (builderOn (s ++ fold_right append EmptyString chunks) b
                              (Some openPart)) |},
       (n + String.length (fold_right append EmptyString chunks), final)).
Proof.
  induction chunks as [|buf chunks IH]; intros s b n.
  - cbn [io.copyLoop fold_right String.length].
    now rewrite append_nil_r, Nat.add_0_r.
  - cbn [io.copyLoop fold_right].
    destruct (Nat.eqb (String.length buf) 0) eqn:E.
    + apply Nat.eqb_eq in E. destruct buf; [|discriminate].
      rewrite IH. reflexivity.
    + rewrite partWrite_Buffer, Nat.ltb_irrefl, Nat.eqb_refl, IH.
      rewrite append_assoc, length_append, Nat.add_assoc. reflexivity.
Qed.

Lemma Copy_Buffer (s b : string) (r : io.Reader) :
  exists n,
    io.Copy {| multipart.mw := writer (builderOn s b (Some openPart)) |} r =
      ({| multipart.mw :=
            writer (builderOn (s ++ content r) b (Some openPart)) |},
       (n, io.final r)).
Proof. eexists. unfold io.Copy. rewrite copyLoop_Buffer. reflexivity. Qed.

Lemma headerLines_fileReaderHeader `{mime.Parser}
    (fieldname filename contentType : string) :
  multipart.headerLines (fileReaderHeader fieldname filename contentType) =
    dispositionLine fieldname (Some (filepath.Base filename)) ++
    typeLine (mime.ParseMediaType contentType).
Proof.
  unfold fileReaderHeader, dispositionLine, typeLine.
  rewrite !escapeQuotes_bytes.
  destruct (mime.ParseMediaType contentType) as [m|];
    cbn; str_norm; reflexivity.
Qed.

(** The reader-based append on a buffer: it writes the boundary line, the
    header and the bytes of the reader, and returns the reader's error. *)
Lemma CreateFormFileReaderWithContentType_Buffer `{mime.Parser}
    (s b : string) (lp : option multipart.part)
    (fieldname : string) (r : io.Reader) (filename contentType : string) :
  sound lp ->
  CreateFormFileReaderWithContentType (builderOn s b lp)
      fieldname r filename contentType =
    (builderOn (s ++ delimiter b (isNone lp) ++
                encodedPart (TypedReaderField fieldname r filename contentType))
               b (Some openPart),
     io.final r).
Proof.
  intro Hs. unfold CreateFormFileReaderWithContentType.
  rewrite CreatePart_Buffer by exact Hs.
  destruct (Copy_Buffer
              (s ++ delimiter b (isNone lp) ++
               multipart.headerLines
                 (fileReaderHeader fieldname filename contentType) ++ CRLF)
              b r) as [n ->].
  cbn [multipart.mw]. rewrite headerLines_fileReaderHeader.
  unfold encodedPart, builderOn. str_norm. reflexivity.
Qed.

Lemma CreateFormFile_Buffer (s b : string) (lp : option multipart.part)
    (fieldname : string) (file : os.File) :
  sound lp -> os.Name file <> EmptyString ->
  CreateFormFile (builderOn s b lp) fieldname file =
    (builderOn (s ++ delimiter b (isNone lp) ++
                libDispositionLine fieldname (Some (os.Name file)) ++
                typeLine (Some "application/octet-stream") ++ CRLF ++
                content (os.contents file))
               b (Some openPart),
     io.final (os.contents file)).
Proof.
  intros Hs Hn. unfold CreateFormFile, createFormFile.
  destruct (String.eqb_spec (os.Name file) EmptyString) as [E|_];
    [contradiction|].
  unfold multipart.CreateFormFile.
  rewrite CreatePart_Buffer by exact Hs.
  match goal with
  | |- context [io.Copy {| multipart.mw := writer (builderOn ?s' _ _) |} ?r] =>
      destruct (Copy_Buffer s' b r) as [n ->]
  end.
  cbn [multipart.mw]. rewrite !multipart_escapeQuotes_bytes.
  unfold libDispositionLine, typeLine, builderOn. cbn. str_norm. reflexivity.
Qed.

Lemma WriteField_Buffer (s b : string) (lp : option multipart.part)
    (fieldname value : string) :
  sound lp ->
  WriteField (builderOn s b lp) fieldname value =
    (builderOn (s ++ delimiter b (isNone lp) ++
                libDispositionLine fieldname None ++ CRLF ++ value)
               b (Some openPart),
     None).
Proof.
  intro Hs. unfold WriteField, multipart.WriteField, multipart.CreateFormField.
  rewrite CreatePart_Buffer by exact Hs.
  rewrite partWrite_Buffer. cbn [multipart.mw].
  rewrite multipart_escapeQuotes_bytes.
  unfold libDispositionLine, builderOn. cbn. str_norm. reflexivity.
Qed.

Lemma Close_Buffer (s b : string) (lp : option multipart.part) :
  sound lp ->
  Close (builderOn s b lp) = (builderOn (s ++ terminal b) b None, None).
Proof.
  intro Hs. unfold Close, multipart.Close, builderOn, terminal.
  cbn [writer multipart.lastpart multipart.w multipart.boundary].
  destruct lp as [p|]; unfold sound in Hs; cbn [pending] in Hs.
  - unfold multipart.partClose. rewrite Hs. reflexivity.
  - reflexivity.
Qed.

Lemma append_Buffer `{mime.Parser} (s b : string)
    (lp : option multipart.part) (f : Field) :
  sound lp -> readable f ->
  append_ (builderOn s b lp) f =
    (builderOn (s ++ delimiter b (isNone lp) ++ encodedPart f) b (Some openPart),
     None).
Proof.
  intros Hs Hr. destruct f as [fieldname file|fieldname r filename
                              |fieldname r filename contentType
                              |fieldname value];
    cbn [append_ encodedPart readable] in *.
  - destruct Hr as [Hn Hf].
    rewrite CreateFormFile_Buffer by assumption. now rewrite Hf.
  - unfold CreateFormFileReader.
    rewrite CreateFormFileReaderWithContentType_Buffer by assumption.
    now rewrite Hr.
  - rewrite CreateFormFileReaderWithContentType_Buffer by assumption.
    now rewrite Hr.
  - now rewrite WriteField_Buffer by assumption.
Qed.

(** Appends that can be read to the end succeed on a buffer and leave, in
    the order of the calls, one part each behind its boundary line. *)
Lemma appendAll_Buffer `{mime.Parser} (fields : list Field) :
  forall (s b : string) (lp : option multipart.part),
    sound lp -> Forall readable fields ->
    appendAll (builderOn s b lp) fields =
      (builderOn (s ++ wireFrom b (isNone lp) (map encodedPart fields)) b
                 (lastAfter lp fields),
       None).
Proof.
  induction fields as [|f fields IH]; intros s b lp Hs Hr.
  - cbn. now rewrite append_nil_r.
  - inversion Hr as [|? ? Hf Hrest]; subst.
    cbn [appendAll map wireFrom lastAfter].
    rewrite append_Buffer by assumption.
    rewrite IH by (auto; reflexivity). cbn [isNone].
    rewrite !append_assoc.
    destruct fields; reflexivity.
Qed.

Lemma sound_lastAfter (lp : option multipart.part) (fields : list Field) :
  sound lp -> sound (lastAfter lp fields).
Proof. destruct fields; [auto | reflexivity]. Qed.

Lemma appendImages_appendAll `{mime.Parser} (images : list io.Reader) :
  forall fb : DefaultFormBuilder bytes.Buffer,
    appendImages images fb = appendAll fb (imageFields images).
Proof.
  induction images as [|image images IH]; intro fb; [reflexivity|].
  cbn [appendImages imageFields map appendAll append_]. unfold andThen.
  destruct (CreateFormFileReaderWithContentType fb _ image _ _) as [fb' [e|]];
    [reflexivity|].
  apply IH.
Qed.

(** * The boundary *)

Lemma digit_not_tspecial (n : nat) :
  strings.mem_char (hex.digit n) multipart.tspecials = false.
Proof.
  do 16 (destruct n as [|n]; [reflexivity|]). reflexivity.
Qed.

(** A boundary drawn by [randomBoundary] is made of hexadecimal digits and
    needs no quotes. *)
Lemma randomBoundary_plain (buf : string) :
  strings.ContainsAny (multipart.randomBoundary buf) multipart.tspecials = false.
Proof.
  unfold multipart.randomBoundary.
  induction buf as [|c buf IH]; [reflexivity|].
  cbn [hex.EncodeToString strings.ContainsAny].
  now rewrite !digit_not_tspecial, IH.
Qed.

Section Boundary.

Context {W : Type} `{io.Writer W} `{mime.Parser}.

Lemma partWrite_boundary (p p' : multipart.partWriter W) (d : string)
    (res : nat * error) :
  io.Write p d = (p', res) ->
  multipart.boundary (multipart.mw p') = multipart.boundary (multipart.mw p).
Proof.
  unfold io.Write, multipart.partWriter_Writer.
  destruct (multipart.lastpart (multipart.mw p)) as [pt|].
  - destruct (multipart.closed pt).
    + intros [= <- _]. reflexivity.
    + destruct (io.Write (multipart.w (multipart.mw p)) d) as [w' [n e]].
      intros [= <- _]. reflexivity.
  - intros [= <- _]. reflexivity.
Qed.

Lemma copyLoop_boundary (chunks : list string) (final : error) :
  forall (p p' : multipart.partWriter W) (n : nat) (res : nat * error),
    io.copyLoop p chunks final n = (p', res) ->
    multipart.boundary (multipart.mw p') = multipart.boundary (multipart.mw p).
Proof.
  induction chunks as [|buf chunks IH]; intros p p' n res.
  - cbn. intros [= <- _]. reflexivity.
  - cbn [io.copyLoop].
    destruct (Nat.eqb (String.length buf) 0); [apply IH|].
    destruct (io.Write p buf) as [p1 [nw ew]] eqn:Ew.
    apply partWrite_boundary in Ew. rewrite <- Ew.
    destruct (Nat.ltb (String.length buf) nw).
    + destruct ew; intros [= <- _]; reflexivity.
    + destruct ew.
      * intros [= <- _]. reflexivity.
      * destruct (Nat.eqb (String.length buf) nw); [apply IH|].
        intros [= <- _]. reflexivity.
Qed.

Lemma CreatePart_boundary (mw : multipart.Writer W) (h : textproto.MIMEHeader) :
  match multipart.CreatePart mw h with
  | multipart.Part p =>
      multipart.boundary (multipart.mw p) = multipart.boundary mw
  | multipart.Failed mw' _ => multipart.boundary mw' = multipart.boundary mw
  end.
Proof.
  unfold multipart.CreatePart.
  destruct (multipart.lastpart mw) as [pt|].
  - unfold multipart.partClose. destruct (multipart.we pt).
    + reflexivity.
    + destruct (bytes.WriteTo _ (multipart.w mw)) as [w' [e|]]; reflexivity.
  - destruct (bytes.WriteTo _ (multipart.w mw)) as [w' [e|]]; reflexivity.
Qed.

(** Creating a part and copying a reader into it keeps the boundary. *)
Lemma createAndCopy_boundary (mw : multipart.Writer W)
    (h : textproto.MIMEHeader) (r : io.Reader) :
  multipart.boundary
    (writer (fst match multipart.CreatePart mw h with
                 | multipart.Failed mw' err => ({| writer := mw' |}, Some err)
                 | multipart.Part fieldWriter =>
                     let '(fieldWriter', (_, err)) := io.Copy fieldWriter r in
                     ({| writer := multipart.mw fieldWriter' |}, err)
                 end)) = multipart.boundary mw.
Proof.
  pose proof (CreatePart_boundary mw h) as Hc.
  destruct (multipart.CreatePart mw h) as [p|mw' e]; [|exact Hc].
  destruct (io.Copy p r) as [p' [n e]] eqn:Ec.
  unfold io.Copy in Ec. apply copyLoop_boundary in Ec.
  cbn. congruence.
Qed.

Lemma call_boundary (fb : DefaultFormBuilder W) (op : Op) :
  multipart.boundary (writer (fst (call fb op))) =
  multipart.boundary (writer fb).
Proof.
  destruct op as [[fieldname file|fieldname r filename
                  |fieldname r filename contentType|fieldname value]|];
    cbn [call append_].
  - unfold CreateFormFile, createFormFile.
    destruct (String.eqb (os.Name file) EmptyString); [reflexivity|].
    apply createAndCopy_boundary.
  - apply createAndCopy_boundary.
  - apply createAndCopy_boundary.
  - unfold WriteField, multipart.WriteField, multipart.CreateFormField.
    pose proof (CreatePart_boundary (writer fb)
      (textproto.Set_ textproto.make "Content-Disposition"
         ("form-data; name=" ++ DQ ++ multipart.escapeQuotes fieldname ++ DQ)))
      as Hc.
    destruct (multipart.CreatePart _ _) as [p|mw' e]; [|exact Hc].
    destruct (io.Write p value) as [p' [n e]] eqn:Ew.
    apply partWrite_boundary in Ew. cbn. congruence.
  - unfold Close, multipart.Close.
    destruct (multipart.lastpart (writer fb)) as [pt|].
    + unfold multipart.partClose. destruct (multipart.we pt); [reflexivity|].
      destruct (io.Write _ _) as [w' [n e]]. reflexivity.
    + destruct (io.Write _ _) as [w' [n e]]. reflexivity.
Qed.

Lemma perform_boundary (ops : list Op) :
  forall fb : DefaultFormBuilder W,
    multipart.boundary (writer (perform fb ops)) =
    multipart.boundary (writer fb).
Proof.
  induction ops as [|op ops IH]; intro fb; [reflexivity|].
  cbn [perform]. rewrite IH. apply call_boundary.
Qed.

End Boundary.

Lemma NewFormBuilder_builderOn (buf : string) :
  NewFormBuilder (W:=bytes.Buffer) EmptyString buf =
    builderOn EmptyString (multipart.randomBoundary buf) None.
Proof. reflexivity. Qed.

Lemma builderOn_eta (fb : DefaultFormBuilder bytes.Buffer) :
  fb = builderOn (multipart.w (writer fb)) (multipart.boundary (writer fb))
                 (multipart.lastpart (writer fb)).
Proof. destruct fb as [[s b lp]]. reflexivity. Qed.

Lemma FormDataContentType_plain {W : Type} `{io.Writer W}
    (fb : DefaultFormBuilder W) :
  strings.ContainsAny (multipart.boundary (writer fb)) multipart.tspecials = false ->
  FormDataContentType fb =
    "multipart/form-data; boundary=" ++ multipart.boundary (writer fb).
Proof.
  intro Hb. unfold FormDataContentType, multipart.FormDataContentType.
  now rewrite Hb.
Qed.

(** * File names *)

(** [Base] never returns the empty string. *)
Lemma Base_not_empty (path : string) : filepath.Base path <> EmptyString.
Proof.
  unfold filepath.Base.
  destruct (String.eqb path EmptyString); [discriminate|].
  destruct (String.eqb_spec
              match filepath.afterLastSeparator (filepath.stripTrailingSeparators path) with
              | Some t => t
              | None => filepath.stripTrailingSeparators path
              end EmptyString) as [E|E]; [discriminate|exact E].
Qed.

(** C1: the reader-based append called with the empty file name does not
    write an empty quoted file name: [filepath.Base] turns the empty name
    into a dot, which is what the Content-Disposition header of the part
    carries; for the field [image] that header has [filename] followed by
    a quoted dot and has no [filename] followed by two quotes. *)
Theorem empty_filename_is_written_as_dot :
  forall (P : mime.Parser) (fieldname contentType : string) (r : io.Reader)
         (buf : string),
    textproto.Values (fileReaderHeader fieldname EmptyString contentType)
                     "Content-Disposition" =
      ["form-data; name=" ++ DQ ++ escapeQuotes fieldname ++ DQ ++
       "; filename=" ++ DQ ++ "." ++ DQ] /\
    CreateFormFileReaderWithContentType (NewFormBuilder EmptyString buf)
        fieldname r EmptyString contentType =
      (builderOn
         (delimiter (multipart.randomBoundary buf) true ++
          dispositionLine fieldname (Some ".") ++
          typeLine (mime.ParseMediaType contentType) ++ CRLF ++ content r)
         (multipart.randomBoundary buf) (Some openPart),
       io.final r) /\
    (exists v : string,
       textproto.Values (fileReaderHeader "image" EmptyString contentType)
                        "Content-Disposition" = [v] /\
       strings.Contains v ("filename=" ++ DQ ++ DQ) = false /\
       strings.Contains v ("filename=" ++ DQ ++ "." ++ DQ) = true).
Proof.
  intros P fieldname contentType r buf. split; [|split].
  - unfold fileReaderHeader.
    destruct (mime.ParseMediaType contentType); reflexivity.
  - rewrite NewFormBuilder_builderOn.
    rewrite CreateFormFileReaderWithContentType_Buffer by reflexivity.
    reflexivity.
  - unfold fileReaderHeader.
    destruct (mime.ParseMediaType contentType);
      (eexists; split; [reflexivity | split; vm_compute; reflexivity]).
Qed.

(** C6: the file-handle variant writes the name of the handle as it was
    given to [Open], directories included; the last path element of
    [/tmp/cat.png] would be [cat.png]. *)
Theorem file_handle_name_is_written_unstripped :
  forall (fieldname : string) (r : io.Reader) (buf : string),
    CreateFormFile (NewFormBuilder EmptyString buf) fieldname
        {| os.Name := "/tmp/cat.png"; os.contents := r |} =
      (builderOn
         (delimiter (multipart.randomBoundary buf) true ++
          libDispositionLine fieldname (Some "/tmp/cat.png") ++
          typeLine (Some "application/octet-stream") ++ CRLF ++ content r)
         (multipart.randomBoundary buf) (Some openPart),
       io.final r) /\
    filepath.Base "/tmp/cat.png" = "cat.png".
Proof.
  intros fieldname r buf. split; [|reflexivity].
  rewrite NewFormBuilder_builderOn.
  rewrite CreateFormFile_Buffer; [reflexivity|reflexivity|discriminate].
Qed.

(** C7: when the name of the file handle is empty, [CreateFormFile]
    returns the error [filename cannot be empty] and leaves the builder,
    and with it the sink, as they were. *)
Theorem empty_file_name_is_rejected :
  forall (W : Type) (Wr : io.Writer W) (fb : DefaultFormBuilder W)
         (fieldname : string) (file : os.File),
    os.Name file = EmptyString ->
    CreateFormFile fb fieldname file = (fb, Some "filename cannot be empty").
Proof.
  intros W Wr fb fieldname file Hn.
  unfold CreateFormFile, createFormFile. now rewrite Hn.
Qed.

Lemma empty_file_name_is_rejected_witness :
  CreateFormFile (NewFormBuilder (W:=bytes.Buffer) EmptyString "ab") "image"
      {| os.Name := EmptyString; os.contents := sampleReader "PNG1" |} =
    (NewFormBuilder EmptyString "ab", Some "filename cannot be empty").
Proof.
  apply (empty_file_name_is_rejected bytes.Buffer bytes.Buffer_Writer).
  reflexivity.
Defined.

(** C3: the part written by [CreateFormFileReaderWithContentType] has a
    Content-Type header exactly when the content type parses, and its
    value is then the parsed media type; a content type that does not
    parse leaves the header out and has no part in the error returned,
    which on a buffer is the error of the reader. *)
Theorem content_type_header_iff_media_type_parses :
  forall (P : mime.Parser) (s b : string) (lp : option multipart.part)
         (fieldname : string) (r : io.Reader) (filename contentType : string),
    sound lp ->
    textproto.Values (fileReaderHeader fieldname filename contentType)
                     "Content-Type" =
      match mime.ParseMediaType contentType with
      | Some mediaType => [mediaType]
      | None => []
      end /\
    CreateFormFileReaderWithContentType (builderOn s b lp)
        fieldname r filename contentType =
      (builderOn
         (s ++ delimiter b (isNone lp) ++
          dispositionLine fieldname (Some (filepath.Base filename)) ++
          match mime.ParseMediaType contentType with
          | Some mediaType => "Content-Type: " ++ mediaType ++ CRLF
          | None => EmptyString
          end ++ CRLF ++ content r)
         b (Some openPart),
       io.final r).
Proof.
  intros P s b lp fieldname r filename contentType Hs. split.
  - unfold fileReaderHeader.
    destruct (mime.ParseMediaType contentType); reflexivity.
  - rewrite CreateFormFileReaderWithContentType_Buffer by exact Hs.
    reflexivity.
Qed.

Lemma content_type_header_iff_media_type_parses_witness :
  textproto.Values
    (fileReaderHeader (P:=mime.bare) "image" EmptyString "image/png")
    "Content-Type" = ["image/png"] /\
  textproto.Values
    (fileReaderHeader (P:=mime.bare) "image" EmptyString "not/a/valid/type;;;")
    "Content-Type" = [].
Proof.
  split.
  - apply (content_type_header_iff_media_type_parses mime.bare
             EmptyString "ab" None "image" (sampleReader "PNG1")
             EmptyString "image/png"). reflexivity.
  - apply (content_type_header_iff_media_type_parses mime.bare
             EmptyString "ab" None "image" (sampleReader "PNG1")
             EmptyString "not/a/valid/type;;;"). reflexivity.
Defined.

(** * After Close *)

(** A [Close] that succeeds on a buffer leaves no last part behind. *)
Lemma Close_Buffer_inv (fb fb' : DefaultFormBuilder bytes.Buffer) :
  Close fb = (fb', None) ->
  fb' = builderOn (multipart.w (writer fb) ++ terminal (multipart.boundary (writer fb)))
                  (multipart.boundary (writer fb)) None.
Proof.
  destruct fb as [[s b lp]].
  change (Close (builderOn s b lp) = (fb', None) ->
          fb' = builderOn (s ++ terminal b) b None).
  destruct (pending lp) as [e|] eqn:Ep.
  - destruct lp as [[cl we]|]; [|discriminate]. cbn in Ep. subst we.
    cbv. discriminate.
  - rewrite Close_Buffer by exact Ep. now intros [= <-].
Qed.

(** C2 as stated fails: closing an empty form twice succeeds twice, and
    the second [Close] writes the closing line once more. *)
Lemma close_twice_is_not_rejected :
  ~ (forall fb fb' : DefaultFormBuilder bytes.Buffer,
       Close fb = (fb', None) ->
       rejected fb' (Close fb') /\
       forall fieldname value : string,
         rejected fb' (WriteField fb' fieldname value)).
Proof.
  intro Hclaim.
  destruct (Hclaim (NewFormBuilder EmptyString "ab")
                   (builderOn (terminal "6162") "6162" None) eq_refl)
    as [[Herr _] _].
  apply Herr. reflexivity.
Qed.

(** C2, amended: once [Close] has succeeded on a buffer, the builder does
    not reject what follows.  A second [Close] writes the closing line
    again and returns nil; an append writes a new part, behind a boundary
    line without a line break before it, and returns nil for a plain field
    and the reader's error for a reader. *)
Theorem calls_after_close_are_carried_out :
  forall (P : mime.Parser) (fb fb' : DefaultFormBuilder bytes.Buffer)
         (fieldname value : string) (r : io.Reader)
         (filename contentType : string),
    Close fb = (fb', None) ->
    let s := multipart.w (writer fb') in
    let b := multipart.boundary (writer fb') in
    Close fb' = (builderOn (s ++ terminal b) b None, None) /\
    WriteField fb' fieldname value =
      (builderOn (s ++ delimiter b true ++
                  encodedPart (PlainField fieldname value)) b (Some openPart),
       None) /\
    CreateFormFileReaderWithContentType fb' fieldname r filename contentType =
      (builderOn (s ++ delimiter b true ++
                  encodedPart (TypedReaderField fieldname r filename contentType))
                 b (Some openPart),
       io.final r).
Proof.
  intros P fb fb' fieldname value r filename contentType Hc.
  apply Close_Buffer_inv in Hc.
  set (s0 := multipart.w (writer fb) ++ terminal (multipart.boundary (writer fb))) in Hc.
  set (b0 := multipart.boundary (writer fb)) in Hc.
  rewrite Hc.
  change (multipart.w (writer (builderOn s0 b0 None))) with s0.
  change (multipart.boundary (writer (builderOn s0 b0 None))) with b0.
  cbv zeta. split; [|split].
  - now rewrite Close_Buffer.
  - now rewrite WriteField_Buffer.
  - now rewrite CreateFormFileReaderWithContentType_Buffer.
Qed.

Lemma calls_after_close_are_carried_out_witness :
  Close (builderOn (terminal "6162") "6162" None) =
    (builderOn (terminal "6162" ++ terminal "6162") "6162" None, None).
Proof.
  apply (calls_after_close_are_carried_out mime.bare
           (NewFormBuilder EmptyString "ab")
           (builderOn (terminal "6162") "6162" None)
           "n" "1" (sampleReader "PNG1") EmptyString "image/png").
  reflexivity.
Defined.

(** * Forms *)

Lemma appendAll_app `{mime.Parser} (l1 l2 : list Field) :
  forall fb : DefaultFormBuilder bytes.Buffer,
    appendAll fb (l1 ++ l2)%list =
      ((fun b => appendAll b l1) >> (fun b => appendAll b l2)) fb.
Proof.
  unfold andThen. induction l1 as [|f l1 IH]; intro fb; [reflexivity|].
  cbn [app appendAll].
  destruct (append_ fb f) as [fb' [e|]]; [reflexivity|]. apply IH.
Qed.

(** Appends and a [Close] on a fresh buffer: the parts in call order, then
    the closing line. *)
Lemma form_on_buffer `{mime.Parser} (b : string) (fields : list Field) :
  Forall readable fields ->
  ((fun fb => appendAll fb fields) >> Close) (builderOn EmptyString b None) =
    (builderOn (wire b (map encodedPart fields) ++ terminal b) b None, None).
Proof.
  intro Hr. unfold andThen.
  rewrite appendAll_Buffer by (reflexivity || assumption).
  rewrite Close_Buffer by (apply sound_lastAfter; reflexivity).
  reflexivity.
Qed.

Ltac destruct_call :=
  match goal with
  | |- context [CreateFormFileReaderWithContentType ?b ?f ?r ?n ?t] =>
      destruct (CreateFormFileReaderWithContentType b f r n t) as [? [?|]]
  | |- context [CreateFormFileReader ?b ?f ?r ?n] =>
      destruct (CreateFormFileReader b f r n) as [? [?|]]
  | |- context [WriteField ?b ?f ?v] =>
      destruct (WriteField b f v) as [? [?|]]
  | |- context [appendAll ?b (imageFields ?l)] =>
      destruct (appendAll b (imageFields l)) as [? [?|]]
  end; cbv beta iota zeta; try reflexivity.

(** The calls of the single-image endpoint are the appends of its fields
    followed by [Close]. *)
Lemma editForm_appendAll `{mime.Parser} (request : ImageEditRequest)
    (fb : DefaultFormBuilder bytes.Buffer) :
  editForm request fb =
    ((fun b => appendAll b (editFields request)) >> Close) fb.
Proof.
  unfold editForm, editFields, responseFormatField, andThen, skip.
  destruct (ie_Mask request) as [mask|];
    destruct (String.eqb (ie_ResponseFormat request) EmptyString);
    cbn [app appendAll append_]; repeat destruct_call.
Qed.

Lemma multiEditForm_appendAll `{mime.Parser} (request : MultiImageEditRequest)
    (fb : DefaultFormBuilder bytes.Buffer) :
  multiEditForm request fb =
    ((fun b => appendAll b
                 (imageFields (mie_Images request) ++
                  [PlainField "prompt" (mie_Prompt request);
                   PlainField "n" (strconv.Itoa (mie_N request));
                   PlainField "size" (mie_Size request)] ++
                  responseFormatField (mie_ResponseFormat request))%list)
     >> Close) fb.
Proof.
  unfold andThen at 1. rewrite appendAll_app.
  unfold multiEditForm, responseFormatField, andThen, skip.
  rewrite appendImages_appendAll.
  destruct (String.eqb (mie_ResponseFormat request) EmptyString);
    cbn [app appendAll append_]; repeat destruct_call.
Qed.

(** What the endpoints ask of the client once the form is closed. *)
Lemma CreateEditImage_calls (P : mime.Parser) (Ctx Request : Type)
    (c : Client Ctx Request) (ctx : Ctx) (buf : string)
    (request : ImageEditRequest) :
  (forall body, createFormBuilder c body = NewFormBuilder body buf) ->
  Forall readable (editFields request) ->
  exists rest,
    calls (CreateEditImage c ctx request) =
      CreateFormBuilderCall EmptyString ::
      NewRequestCall MethodPost
        (fullURL c "/images/edits" [withModel (ie_Model request)])
        [withBody (wire (multipart.randomBoundary buf)
                        (map encodedPart (editFields request)) ++
                   terminal (multipart.randomBoundary buf));
         withContentType ("multipart/form-data; boundary=" ++
                          multipart.randomBoundary buf)] :: rest.
Proof.
  intros Hf Hr. unfold CreateEditImage. cbv zeta.
  rewrite Hf, NewFormBuilder_builderOn, editForm_appendAll.
  rewrite form_on_buffer by exact Hr.
  rewrite FormDataContentType_plain by apply randomBoundary_plain.
  cbn [builderOn writer multipart.w multipart.boundary].
  destruct (newRequest c ctx _ _ _) as [req|e].
  - destruct (sendRequest c req zeroImageResponse) as [resp e].
    eexists. reflexivity.
  - eexists. reflexivity.
Qed.

Lemma CreateMultiEditImage_calls (P : mime.Parser) (Ctx Request : Type)
    (c : Client Ctx Request) (ctx : Ctx) (buf : string)
    (request : MultiImageEditRequest) :
  (forall body, createFormBuilder c body = NewFormBuilder body buf) ->
  Forall readable (multiEditFields request) ->
  mie_Images request <> [] ->
  exists rest,
    calls (CreateMultiEditImage c ctx request) =
      CreateFormBuilderCall EmptyString ::
      NewRequestCall MethodPost
        (fullURL c "/images/edits" [withModel (mie_Model request)])
        [withBody (wire (multipart.randomBoundary buf)
                        (map encodedPart (multiEditFields request)) ++
                   terminal (multipart.randomBoundary buf));
         withContentType ("multipart/form-data; boundary=" ++
                          multipart.randomBoundary buf)] :: rest.
Proof.
  intros Hf Hr Hne. unfold CreateMultiEditImage, multiEditFields in *.
  pose proof (multiEditForm_appendAll request) as Hform.
  destruct (mie_Images request) as [|image [|image' images]];
    [contradiction| |].
  - apply (CreateEditImage_calls P Ctx Request c ctx buf); assumption.
  - cbv zeta.
    rewrite Hf, NewFormBuilder_builderOn, Hform.
    rewrite form_on_buffer by exact Hr.
    rewrite FormDataContentType_plain by apply randomBoundary_plain.
    cbn [builderOn writer multipart.w multipart.boundary].
    destruct (newRequest c ctx _ _ _) as [req|e].
    + destruct (sendRequest c req zeroImageResponse) as [resp e].
      eexists. reflexivity.
    + eexists. reflexivity.
Qed.

(** C5: appends that can be read to the end, made on a fresh builder over
    a buffer, all succeed and leave in the buffer one encoded part for
    each call, each behind its boundary line, in the order of the calls;
    the loop of [CreateMultiEditImage] is such a sequence of appends, one
    for each image, all under the name [image[]]. *)
Theorem parts_appear_in_call_order :
  forall (P : mime.Parser) (buf : string) (fields : list Field)
         (images : list io.Reader) (fb : DefaultFormBuilder bytes.Buffer),
    Forall readable fields ->
    appendAll (NewFormBuilder EmptyString buf) fields =
      (builderOn (wire (multipart.randomBoundary buf) (map encodedPart fields))
                 (multipart.randomBoundary buf) (lastAfter None fields),
       None) /\
    appendImages images fb =
      appendAll fb
        (map (fun image =>
                TypedReaderField "image[]" image EmptyString "image/png")
             images).
Proof.
  intros P buf fields images fb Hr. split.
  - rewrite NewFormBuilder_builderOn.
    rewrite appendAll_Buffer by (reflexivity || assumption).
    reflexivity.
  - apply appendImages_appendAll.
Qed.

Lemma parts_appear_in_call_order_witness :
  multipart.w
    (writer
       (fst (appendAll (P:=mime.bare) (NewFormBuilder EmptyString "ab")
               (imageFields (mie_Images sampleMulti))))) =
    wire "6162"
      [encodedPart (P:=mime.bare)
         (TypedReaderField "image[]" (sampleReader "PNG1") EmptyString "image/png");
       encodedPart (P:=mime.bare)
         (TypedReaderField "image[]" (sampleReader "PNG2") EmptyString "image/png");
       encodedPart (P:=mime.bare)
         (TypedReaderField "image[]" (sampleReader "PNG3") EmptyString "image/png")].
Proof.
  destruct (parts_appear_in_call_order mime.bare "ab"
              (imageFields (mie_Images sampleMulti)) []
              (NewFormBuilder EmptyString "ab")) as [Hw _].
  - repeat constructor.
  - rewrite Hw. reflexivity.
Defined.

(** C8: whatever calls were made on a builder since [NewFormBuilder],
    [FormDataContentType] returns [multipart/form-data; boundary=] followed
    by the boundary drawn at construction, which is the boundary the
    builder still holds; and a form written to a buffer and closed has
    that same boundary on every boundary line and on the closing line. *)
Theorem content_type_carries_the_boundary_of_the_body :
  forall (P : mime.Parser) (W : Type) (Wr : io.Writer W) (body : W)
         (buf : string) (ops : list Op) (fields : list Field),
    Forall readable fields ->
    FormDataContentType (perform (NewFormBuilder body buf) ops) =
      "multipart/form-data; boundary=" ++ multipart.randomBoundary buf /\
    multipart.boundary (writer (perform (NewFormBuilder body buf) ops)) =
      multipart.randomBoundary buf /\
    ((fun fb => appendAll fb fields) >> Close) (NewFormBuilder EmptyString buf) =
      (builderOn (wire (multipart.randomBoundary buf) (map encodedPart fields) ++
                  terminal (multipart.randomBoundary buf))
                 (multipart.randomBoundary buf) None,
       None).
Proof.
  intros P W Wr body buf ops fields Hr.
  assert (Hb : multipart.boundary (writer (perform (NewFormBuilder body buf) ops)) =
               multipart.randomBoundary buf)
    by (rewrite perform_boundary; reflexivity).
  split; [|split].
  - rewrite FormDataContentType_plain; rewrite Hb;
      [reflexivity | apply randomBoundary_plain].
  - exact Hb.
  - rewrite NewFormBuilder_builderOn. now apply form_on_buffer.
Qed.

Lemma content_type_carries_the_boundary_of_the_body_witness :
  FormDataContentType
    (perform (P:=mime.bare) (NewFormBuilder (W:=bytes.Buffer) EmptyString "ab")
       [Append (PlainField "prompt" "a cat"); CloseOp;
        Append (PlainField "n" "2"); CloseOp]) =
    "multipart/form-data; boundary=6162".
Proof.
  apply (content_type_carries_the_boundary_of_the_body mime.bare
           bytes.Buffer bytes.Buffer_Writer EmptyString "ab"
           [Append (PlainField "prompt" "a cat"); CloseOp;
            Append (PlainField "n" "2"); CloseOp]
           [PlainField "prompt" "a cat"; PlainField "n" "2"]).
  repeat constructor.
Defined.

(** C9: with no image in the request, [CreateMultiEditImage] returns the
    zero response and no error, and asks nothing of the client: no form
    builder is made and no request is dispatched. *)
Theorem no_image_returns_zero_response_silently :
  forall (P : mime.Parser) (Ctx Request : Type) (c : Client Ctx Request)
         (ctx : Ctx) (request : MultiImageEditRequest),
    mie_Images request = [] ->
    CreateMultiEditImage c ctx request =
      {| response := zeroImageResponse; err := None; calls := [] |}.
Proof.
  intros P Ctx Request c ctx request Hi.
  unfold CreateMultiEditImage. now rewrite Hi.
Qed.

Lemma no_image_returns_zero_response_silently_witness :
  CreateMultiEditImage (P:=mime.bare) (sampleClient "ab") tt
      (withQualityUserMulti "high" "user-1"
         {| mie_Images := []; mie_Prompt := "a cat"; mie_Model := "gpt-image-1";
            mie_N := 1; mie_Size := "1024x1024";
            mie_ResponseFormat := EmptyString;
            mie_Quality := EmptyString; mie_User := EmptyString |}) =
    {| response := zeroImageResponse; err := None; calls := [] |}.
Proof.
  apply (no_image_returns_zero_response_silently mime.bare unit string).
  reflexivity.
Defined.

(** C10: for a client whose builders come from [NewFormBuilder] and for
    sources that can be read to the end, the body that either endpoint
    hands to the request is made of the parts of its image or images, of
    the mask if there is one, of the prompt, of the count, of the size and
    of the response format if it is not empty, and of nothing else; and
    whatever the client and the sources are, neither endpoint's result
    depends on [Quality] or [User]. *)
Theorem edit_forms_hold_the_listed_fields_only :
  forall (P : mime.Parser) (Ctx Request : Type) (c : Client Ctx Request)
         (ctx : Ctx) (buf : string) (request : ImageEditRequest)
         (mrequest : MultiImageEditRequest) (q u : string),
    (forall body, createFormBuilder c body = NewFormBuilder body buf) ->
    Forall readable (editFields request) ->
    Forall readable (multiEditFields mrequest) ->
    mie_Images mrequest <> [] ->
    (exists rest,
       calls (CreateEditImage c ctx request) =
         CreateFormBuilderCall EmptyString ::
         NewRequestCall MethodPost
           (fullURL c "/images/edits" [withModel (ie_Model request)])
           [withBody (wire (multipart.randomBoundary buf)
                           (map encodedPart (editFields request)) ++
                      terminal (multipart.randomBoundary buf));
            withContentType ("multipart/form-data; boundary=" ++
                             multipart.randomBoundary buf)] :: rest) /\
    (exists rest,
       calls (CreateMultiEditImage c ctx mrequest) =
         CreateFormBuilderCall EmptyString ::
         NewRequestCall MethodPost
           (fullURL c "/images/edits" [withModel (mie_Model mrequest)])
           [withBody (wire (multipart.randomBoundary buf)
                           (map encodedPart (multiEditFields mrequest)) ++
                      terminal (multipart.randomBoundary buf));
            withContentType ("multipart/form-data; boundary=" ++
                             multipart.randomBoundary buf)] :: rest) /\
    CreateEditImage c ctx (withQualityUser q u request) =
      CreateEditImage c ctx request /\
    CreateMultiEditImage c ctx (withQualityUserMulti q u mrequest) =
      CreateMultiEditImage c ctx mrequest.
Proof.
  intros P Ctx Request c ctx buf request mrequest q u Hf Hr Hmr Hne.
  split; [|split; [|split]].
  - now apply CreateEditImage_calls.
  - now apply CreateMultiEditImage_calls.
  - reflexivity.
  - unfold CreateMultiEditImage.
    change (mie_Images (withQualityUserMulti q u mrequest))
      with (mie_Images mrequest).
    destruct (mie_Images mrequest) as [|image [|image' images]]; reflexivity.
Qed.

Lemma edit_forms_hold_the_listed_fields_only_witness :
  exists rest,
    calls (CreateEditImage (P:=mime.bare) (sampleClient "ab") tt sampleEdit) =
      CreateFormBuilderCall EmptyString ::
      NewRequestCall "POST" "/images/edits"
        [withBody (wire "6162"
                     (map (encodedPart (P:=mime.bare)) (editFields sampleEdit)) ++
                   terminal "6162");
         withContentType "multipart/form-data; boundary=6162"] :: rest.
Proof.
  pose proof (edit_forms_hold_the_listed_fields_only mime.bare unit string
                (sampleClient "ab") tt "ab" sampleEdit sampleMulti
                "standard" "user-2"
                (fun body => eq_refl)
                ltac:(repeat constructor)
                ltac:(repeat constructor)
                ltac:(discriminate)) as [Hbody _].
  exact Hbody.
Defined.

(** * More on file names *)

Lemma plainName_cons (c : ascii) (name : string) :
  plainName (String c name) ->
  filepath.IsPathSeparator c = false /\ plainName name.
Proof.
  unfold plainName, filepath.IsPathSeparator. cbn [strings.mem_char].
  intro Hp. apply orb_false_elim in Hp. destruct Hp as [Hc Hn].
  split; [now rewrite Ascii.eqb_sym | exact Hn].
Qed.

Lemma plainName_cons_intro (c : ascii) (name : string) :
  filepath.IsPathSeparator c = false -> plainName name ->
  plainName (String c name).
Proof.
  unfold plainName, filepath.IsPathSeparator. cbn [strings.mem_char].
  intros Hc Hn. now rewrite Ascii.eqb_sym, Hc, Hn.
Qed.

Lemma stripTrailingSeparators_plain (name : string) :
  plainName name -> filepath.stripTrailingSeparators name = name.
Proof.
  induction name as [|c name IH]; [reflexivity|].
  intro Hp. apply plainName_cons in Hp. destruct Hp as [Hc Hn].
  cbn [filepath.stripTrailingSeparators]. rewrite (IH Hn), Hc.
  now destruct name.
Qed.

Lemma afterLastSeparator_plain (name : string) :
  plainName name -> filepath.afterLastSeparator name = None.
Proof.
  induction name as [|c name IH]; [reflexivity|].
  intro Hp. apply plainName_cons in Hp. destruct Hp as [Hc Hn].
  cbn [filepath.afterLastSeparator]. now rewrite (IH Hn), Hc.
Qed.

(** What follows the last separator holds no separator. *)
Lemma afterLastSeparator_result (path : string) :
  match filepath.afterLastSeparator path with
  | Some t => plainName t
  | None => plainName path
  end.
Proof.
  induction path as [|c path IH]; [reflexivity|].
  cbn [filepath.afterLastSeparator].
  destruct (filepath.afterLastSeparator path) as [t|]; [exact IH|].
  destruct (filepath.IsPathSeparator c) eqn:Hc; [exact IH|].
  now apply plainName_cons_intro.
Qed.

Lemma stripTrailingSeparators_app (dir name : string) :
  name <> EmptyString -> filepath.stripTrailingSeparators name = name ->
  filepath.stripTrailingSeparators (dir ++ name) = dir ++ name.
Proof.
  intros Hne Hs. induction dir as [|c dir IH]; [exact Hs|].
  cbn [append filepath.stripTrailingSeparators]. rewrite IH.
  destruct (dir ++ name) eqn:E; [|reflexivity].
  destruct dir; [contradiction | discriminate].
Qed.

Lemma afterLastSeparator_app (dir name : string) :
  plainName name ->
  filepath.afterLastSeparator (dir ++ String slash name) = Some name.
Proof.
  intro Hp. induction dir as [|c dir IH].
  - cbn [append filepath.afterLastSeparator].
    rewrite (afterLastSeparator_plain name Hp). reflexivity.
  - cbn [append filepath.afterLastSeparator]. now rewrite IH.
Qed.

Lemma Base_plain (name : string) :
  name <> EmptyString -> plainName name -> filepath.Base name = name.
Proof.
  intros Hne Hp. unfold filepath.Base.
  destruct (String.eqb_spec name EmptyString) as [E|_]; [contradiction|].
  rewrite (stripTrailingSeparators_plain name Hp).
  rewrite (afterLastSeparator_plain name Hp).
  destruct (String.eqb_spec name EmptyString) as [E|_];
    [contradiction | reflexivity].
Qed.

(** X1: a file name that is not empty and holds no path separator is
    its own last element: the reader-based append writes it as it is. *)
Theorem Base_of_plain_name :
  forall name : string,
    name <> EmptyString -> plainName name -> filepath.Base name = name.
Proof.
  intros name Hne Hp. now apply Base_plain.
Qed.

Lemma Base_of_plain_name_witness : filepath.Base "cat.png" = "cat.png".
Proof.
  apply Base_of_plain_name; [discriminate | reflexivity].
Defined.

(** X2: whatever directories come before the last separator are dropped:
    the last element of [dir/name] is [name], for a name that is not empty
    and holds no separator. *)
Theorem Base_strips_the_directory :
  forall dir name : string,
    name <> EmptyString -> plainName name ->
    filepath.Base (dir ++ String slash name) = name.
Proof.
  intros dir name Hne Hp. unfold filepath.Base.
  destruct (String.eqb_spec (dir ++ String slash name) EmptyString) as [E|_].
  - destruct dir; discriminate.
  - rewrite (stripTrailingSeparators_app dir (String slash name)).
    + rewrite (afterLastSeparator_app dir name Hp).
      destruct (String.eqb_spec name EmptyString) as [E|_];
        [contradiction | reflexivity].
    + discriminate.
    + cbn [filepath.stripTrailingSeparators].
      rewrite (stripTrailingSeparators_plain name Hp).
      destruct name; [contradiction | reflexivity].
Qed.

Lemma Base_strips_the_directory_witness :
  filepath.Base "/home/user/pictures/cat.png" = "cat.png".
Proof.
  apply (Base_strips_the_directory "/home/user/pictures" "cat.png");
    [discriminate | reflexivity].
Defined.

(** X3: the file name that the reader-based append puts in the header is
    never empty; it is the separator alone or holds no separator at all;
    and taking the last element once more changes nothing. *)
Theorem Base_is_a_bare_name :
  forall path : string,
    filepath.Base path <> EmptyString /\
    (filepath.Base path = String slash EmptyString \/
     plainName (filepath.Base path)) /\
    filepath.Base (filepath.Base path) = filepath.Base path.
Proof.
  intro path.
  assert (Hshape : filepath.Base path = String slash EmptyString \/
                   plainName (filepath.Base path)).
  { unfold filepath.Base.
    destruct (String.eqb path EmptyString); [right; reflexivity|].
    pose proof (afterLastSeparator_result
                  (filepath.stripTrailingSeparators path)) as Hr.
    destruct (filepath.afterLastSeparator
                (filepath.stripTrailingSeparators path)) as [t|].
    - destruct (String.eqb t EmptyString); [now left | now right].
    - destruct (String.eqb (filepath.stripTrailingSeparators path) EmptyString);
        [now left | now right]. }
  split; [apply Base_not_empty | split; [exact Hshape|]].
  destruct Hshape as [-> | Hp]; [reflexivity|].
  apply Base_plain; [apply Base_not_empty | exact Hp].
Qed.

(** * More on the escaper *)

Lemma escapeBytes_app (s t : string) :
  escapeBytes (s ++ t) = escapeBytes s ++ escapeBytes t.
Proof.
  induction s as [|c s IH]; [reflexivity|].
  cbn [append escapeBytes]. now rewrite IH, append_assoc.
Qed.

Lemma length_escapeBytes (s : string) :
  String.length (escapeBytes s) = String.length s + countEscaped s.
Proof.
  induction s as [|c s IH]; [reflexivity|].
  cbn [escapeBytes countEscaped String.length]. rewrite length_append, IH.
  unfold escapeByte.
  destruct (Ascii.eqb c backslash); [cbn; lia|].
  destruct (Ascii.eqb c dquote); cbn; lia.
Qed.

(** X4: escaping goes through concatenation, and the escaped string is
    longer than the original by the number of its backslashes and double
    quotes. *)
Theorem escapeQuotes_is_bytewise :
  forall s t : string,
    escapeQuotes (s ++ t) = escapeQuotes s ++ escapeQuotes t /\
    String.length (escapeQuotes s) = String.length s + countEscaped s.
Proof.
  intros s t. rewrite !escapeQuotes_bytes. split.
  - apply escapeBytes_app.
  - apply length_escapeBytes.
Qed.

Lemma scanQuoted_escapeBytes (s rest : string) :
  scanQuoted (escapeBytes s ++ String dquote rest) = Some (s, rest).
Proof.
  induction s as [|c s IH].
  - cbn. reflexivity.
  - cbn [escapeBytes]. unfold escapeByte.
    destruct (Ascii.eqb c backslash) eqn:Eb.
    + apply Ascii.eqb_eq in Eb. subst c.
      cbn [BS append scanQuoted]. cbn [Ascii.eqb Bool.eqb backslash dquote].
      cbn. cbn in IH. now rewrite IH.
    + destruct (Ascii.eqb c dquote) eqn:Eq.
      * apply Ascii.eqb_eq in Eq. subst c.
        cbn. cbn in IH. now rewrite IH.
      * cbn [append scanQuoted]. now rewrite Eq, Eb, IH.
Qed.

(** X5: an escaped name between double quotes is read back as the name,
    and the reading stops at the closing quote whatever follows it: no
    byte of the name can end the quoted string early.  Two names with the
    same escaped form are therefore the same. *)
Theorem escaped_name_is_read_back :
  forall s t rest : string,
    scanQuoted (escapeQuotes s ++ DQ ++ rest) = Some (s, rest) /\
    (escapeQuotes s = escapeQuotes t -> s = t).
Proof.
  intros s t rest. split.
  - rewrite escapeQuotes_bytes. apply scanQuoted_escapeBytes.
  - intro E.
    rewrite <- (unescape_escapeBytes s), <- (unescape_escapeBytes t).
    rewrite <- !escapeQuotes_bytes. now rewrite E.
Qed.

(** * More on the boundary *)



(** * Failures *)

(** An append on a buffer, readable or not: the error is that of the
    source, and what was read before it is in the buffer. *)
Lemma append_Buffer_any `{mime.Parser} (s b : string)
    (lp : option multipart.part) (f : Field) :
  sound lp ->
  exists lp',
    sound lp' /\
    append_ (builderOn s b lp) f =
      (builderOn (s ++ written b (isNone lp) f) b lp', sourceError f).
Proof.
  intro Hs. destruct f as [fieldname file|fieldname r filename
                          |fieldname r filename contentType
                          |fieldname value];
    cbn [append_ written sourceError].
  - destruct (String.eqb_spec (os.Name file) EmptyString) as [E|E].
    + exists lp. split; [exact Hs|].
      unfold CreateFormFile, createFormFile. rewrite E. cbn [String.eqb].
      now rewrite append_nil_r.
    + exists (Some openPart). split; [reflexivity|].
      now rewrite CreateFormFile_Buffer by assumption.
  - exists (Some openPart). split; [reflexivity|].
    unfold CreateFormFileReader.
    now rewrite CreateFormFileReaderWithContentType_Buffer by assumption.
  - exists (Some openPart). split; [reflexivity|].
    now rewrite CreateFormFileReaderWithContentType_Buffer by assumption.
  - exists (Some openPart). split; [reflexivity|].
    now rewrite WriteField_Buffer by assumption.
Qed.

Section Poisoned.

Context {W : Type} {Wr : io.Writer W} {P : mime.Parser}.

(** Once a write through the last part has failed, a call on the builder
    writes nothing, keeps the failure and returns an error. *)
Lemma call_poisoned (fb : DefaultFormBuilder W) (e : string) (op : Op) :
  pending (multipart.lastpart (writer fb)) = Some e ->
  multipart.w (writer (fst (call fb op))) = multipart.w (writer fb) /\
  pending (multipart.lastpart (writer (fst (call fb op)))) = Some e /\
  snd (call fb op) <> None.
Proof.
  destruct fb as [[s b [[cl [e'|]]|]]]; cbn [pending writer multipart.lastpart
    multipart.we]; try discriminate.
  intros [= ->].
  destruct op as [[fieldname file|fieldname r filename
                  |fieldname r filename contentType|fieldname value]|];
    cbn [call append_].
  - unfold CreateFormFile, createFormFile.
    destruct (String.eqb (os.Name file) EmptyString);
      cbn; repeat split; discriminate.
  - cbn. repeat split; discriminate.
  - cbn. repeat split; discriminate.
  - cbn. repeat split; discriminate.
  - cbn. repeat split; discriminate.
Qed.

Lemma perform_poisoned (e : string) (ops : list Op) :
  forall fb : DefaultFormBuilder W,
    pending (multipart.lastpart (writer fb)) = Some e ->
    multipart.w (writer (perform fb ops)) = multipart.w (writer fb) /\
    pending (multipart.lastpart (writer (perform fb ops))) = Some e.
Proof.
  induction ops as [|op ops IH]; intros fb Hp; [now split|].
  cbn [perform].
  destruct (call_poisoned fb e op Hp) as (Hw & Hp' & _).
  destruct (IH _ Hp') as [Hw' Hp''].
  split; [congruence | exact Hp''].
Qed.

Lemma errors_poisoned (fb : DefaultFormBuilder W) (e : string) :
  pending (multipart.lastpart (writer fb)) = Some e ->
  snd (Close fb) = Some e /\
  (forall fieldname value, snd (WriteField fb fieldname value) = Some e) /\
  (forall fieldname r filename contentType,
     snd (CreateFormFileReaderWithContentType fb fieldname r filename contentType) =
       Some e).
Proof.
  destruct fb as [[s b [[cl [e'|]]|]]]; cbn [pending writer multipart.lastpart
    multipart.we]; try discriminate.
  intros [= ->]. repeat split.
Qed.

End Poisoned.

(** X7: a write error through a part is final for the builder.  Whatever
    calls follow, nothing more reaches the sink, and [Close], [WriteField]
    and the reader-based append all return that same error. *)
Theorem write_error_is_final :
  forall (W : Type) (Wr : io.Writer W) (P : mime.Parser)
         (fb : DefaultFormBuilder W) (e : string) (ops : list Op),
    pending (multipart.lastpart (writer fb)) = Some e ->
    multipart.w (writer (perform fb ops)) = multipart.w (writer fb) /\
    snd (Close (perform fb ops)) = Some e /\
    (forall fieldname value,
       snd (WriteField (perform fb ops) fieldname value) = Some e) /\
    (forall fieldname r filename contentType,
       snd (CreateFormFileReaderWithContentType (perform fb ops)
              fieldname r filename contentType) = Some e).
Proof.
  intros W Wr P fb e ops Hp.
  destruct (perform_poisoned e ops fb Hp) as [Hw Hp'].
  split; [exact Hw|]. now apply errors_poisoned.
Qed.

(** X8: when the sink takes the header of a plain field, whose name the
    multipart package has escaped, and refuses its value, [WriteField]
    returns the error of the sink and the part keeps it. *)
Theorem refused_value_is_remembered :
  forall (W : Type) (Wr : io.Writer W) (w0 w1 w2 : W)
         (b fieldname value : string) (n : nat) (e : string),
    io.Write w0 (delimiter b true ++ libDispositionLine fieldname None ++ CRLF) =
      (w1, (String.length
              (delimiter b true ++ libDispositionLine fieldname None ++ CRLF),
            None)) ->
    io.Write w1 value = (w2, (n, Some e)) ->
    WriteField
      {| writer := {| multipart.w := w0; multipart.boundary := b;
                      multipart.lastpart := None |} |} fieldname value =
      ({| writer := {| multipart.w := w2; multipart.boundary := b;
                       multipart.lastpart :=
                         Some {| multipart.closed := false;
                                 multipart.we := Some e |} |} |},
       Some e).
Proof.
  intros W Wr w0 w1 w2 b fieldname value n e Hh Hv.
  unfold WriteField, multipart.WriteField, multipart.CreateFormField,
    multipart.CreatePart.
  cbn [writer multipart.lastpart multipart.w multipart.boundary].
  rewrite multipart_escapeQuotes_bytes.
  match goal with
  | |- context [bytes.WriteTo ?blk w0] =>
      replace blk
        with (delimiter b true ++ libDispositionLine fieldname None ++ CRLF)
        by (unfold delimiter, libDispositionLine; cbn; str_norm; reflexivity)
  end.
  unfold bytes.WriteTo. rewrite Hh, Nat.eqb_refl.
  unfold delimiter at 1. cbn [append String.length Nat.eqb].
  unfold io.Write at 1, multipart.partWriter_Writer.
  cbn [multipart.mw multipart.lastpart multipart.closed multipart.w
       multipart.boundary multipart.we].
  rewrite Hv. reflexivity.
Qed.

Lemma refused_value_is_remembered_witness :
  snd (WriteField (W:=limitedWriter)
         {| writer := {| multipart.w := {| accepted := EmptyString; room := 60 |};
                         multipart.boundary := "6162";
                         multipart.lastpart := None |} |}
         "prompt" "a cat on a mat") = Some "no space left on device".
Proof.
  rewrite (refused_value_is_remembered limitedWriter limitedWriter_Writer
             {| accepted := EmptyString; room := 60 |}
             {| accepted :=
                  delimiter "6162" true ++ libDispositionLine "prompt" None ++ CRLF;
                room := 3 |}
             {| accepted :=
                  delimiter "6162" true ++ libDispositionLine "prompt" None ++ CRLF;
                room := 3 |}
             "6162" "prompt" "a cat on a mat" 0 "no space left on device");
    reflexivity.
Defined.

Lemma write_error_is_final_witness :
  snd (Close (W:=limitedWriter)
         (perform (P:=mime.bare)
            (fst (WriteField (W:=limitedWriter)
                    {| writer := {| multipart.w :=
                                      {| accepted := EmptyString; room := 60 |};
                                    multipart.boundary := "6162";
                                    multipart.lastpart := None |} |}
                    "prompt" "a cat on a mat"))
            [Append (PlainField "n" "1")])) = Some "no space left on device".
Proof.
  apply (write_error_is_final limitedWriter limitedWriter_Writer mime.bare).
  reflexivity.
Defined.




(** * The buffer under any calls *)

Lemma call_Buffer_any `{mime.Parser} (s b : string)
    (lp : option multipart.part) (op : Op) :
  sound lp ->
  exists (d : string) (lp' : option multipart.part),
    sound lp' /\ fst (call (builderOn s b lp) op) = builderOn (s ++ d) b lp'.
Proof.
  intro Hs. destruct op as [f|]; cbn [call].
  - destruct (append_Buffer_any s b lp f Hs) as (lp' & Hs' & ->).
    now exists (written b (isNone lp) f), lp'.
  - rewrite Close_Buffer by exact Hs. now exists (terminal b), None.
Qed.

Lemma perform_Buffer_any `{mime.Parser} (ops : list Op) :
  forall (s b : string) (lp : option multipart.part),
    sound lp ->
    exists (d : string) (lp' : option multipart.part),
      sound lp' /\ perform (builderOn s b lp) ops = builderOn (s ++ d) b lp'.
Proof.
  induction ops as [|op ops IH]; intros s b lp Hs.
  - exists EmptyString, lp. now rewrite append_nil_r.
  - cbn [perform].
    destruct (call_Buffer_any s b lp op Hs) as (d & lp' & Hs' & ->).
    destruct (IH (s ++ d) b lp' Hs') as (d' & lp'' & Hs'' & ->).
    exists (d ++ d'), lp''. now rewrite append_assoc.
Qed.

(** X10: a builder over a buffer only ever adds to the buffer: after any
    calls, in any order and whatever they returned, the bytes that were in
    the buffer are still there, at its start. *)
Theorem buffer_is_only_appended_to :
  forall (P : mime.Parser) (fb : DefaultFormBuilder bytes.Buffer)
         (ops : list Op),
    exists d : string,
      multipart.w (writer (perform fb ops)) = multipart.w (writer fb) ++ d.
Proof.
  intros P fb ops.
  destruct (pending (multipart.lastpart (writer fb))) as [e|] eqn:Ep.
  - destruct (perform_poisoned e ops fb Ep) as [Hw _].
    exists EmptyString. now rewrite Hw, append_nil_r.
  - destruct fb as [[s b lp]].
    destruct (perform_Buffer_any ops s b lp Ep) as (d & lp' & _ & Hp).
    exists d. unfold builderOn in Hp. now rewrite Hp.
Qed.

(** X11: on a buffer no write fails, so that [Close] succeeds after any
    calls on a new builder, whatever they returned, and adds the closing
    line with the boundary of the builder. *)
Theorem Close_succeeds_on_a_buffer :
  forall (P : mime.Parser) (buf : string) (ops : list Op),
    Close (perform (NewFormBuilder (W:=bytes.Buffer) EmptyString buf) ops) =
      (builderOn
         (multipart.w
            (writer (perform (NewFormBuilder (W:=bytes.Buffer) EmptyString buf)
                             ops)) ++
          terminal (multipart.randomBoundary buf))
         (multipart.randomBoundary buf) None,
       None).
Proof.
  intros P buf ops. rewrite NewFormBuilder_builderOn.
  destruct (perform_Buffer_any ops EmptyString (multipart.randomBoundary buf)
              None eq_refl) as (d & lp' & Hs' & Hp).
  rewrite Hp. rewrite Close_Buffer by exact Hs'. reflexivity.
Qed.

Lemma appendAll_first_failure (P : mime.Parser) (b : string)
    (before : list Field) (f : Field) (after : list Field) (e : string) :
  Forall readable before ->
  sourceError f = Some e ->
  exists fb : DefaultFormBuilder bytes.Buffer,
    appendAll (builderOn EmptyString b None) (before ++ f :: after)%list =
      (fb, Some e) /\
    multipart.w (writer fb) =
      wire b (map encodedPart before) ++
      written b (match before with [] => true | _ :: _ => false end) f.
Proof.
  intros Hb He.
  rewrite appendAll_app. unfold andThen.
  rewrite appendAll_Buffer by (reflexivity || assumption).
  cbn [appendAll].
  destruct (append_Buffer_any
              (EmptyString ++ wireFrom b
                                (isNone (@None multipart.part))
                                (map encodedPart before))
              b (lastAfter None before) f)
    as (lp' & _ & ->); [apply sound_lastAfter; reflexivity|].
  rewrite He. eexists. split; [reflexivity|].
  destruct before; reflexivity.
Qed.

(** X12: appends stop at the first source that fails.  The fields before
    it are in the buffer as whole parts, the failing one has left its
    header and the bytes read before the failure (nothing at all for a
    file without a name), the fields after it are not touched, and the
    error returned is that of the source. *)
Theorem appends_stop_at_the_first_failure :
  forall (P : mime.Parser) (buf : string) (before : list Field) (f : Field)
         (after : list Field) (e : string),
    Forall readable before ->
    sourceError f = Some e ->
    exists fb : DefaultFormBuilder bytes.Buffer,
      appendAll (NewFormBuilder EmptyString buf) (before ++ f :: after)%list =
        (fb, Some e) /\
      multipart.w (writer fb) =
        wire (multipart.randomBoundary buf) (map encodedPart before) ++
        written (multipart.randomBoundary buf)
                (match before with [] => true | _ :: _ => false end) f.
Proof.
  intros P buf before f after e Hb He.
  rewrite NewFormBuilder_builderOn. now apply appendAll_first_failure.
Qed.

Lemma appends_stop_at_the_first_failure_witness :
  exists fb : DefaultFormBuilder bytes.Buffer,
    appendAll (P:=mime.bare) (NewFormBuilder EmptyString "ab")
      [PlainField "prompt" "a cat";
       ReaderField "image" (failingReader "PN" "unexpected EOF") EmptyString;
       PlainField "n" "1"] = (fb, Some "unexpected EOF") /\
    multipart.w (writer fb) =
      wire "6162" [encodedPart (P:=mime.bare) (PlainField "prompt" "a cat")] ++
      written (P:=mime.bare) "6162" false
        (ReaderField "image" (failingReader "PN" "unexpected EOF") EmptyString).
Proof.
  apply (appends_stop_at_the_first_failure mime.bare "ab"
           [PlainField "prompt" "a cat"]
           (ReaderField "image" (failingReader "PN" "unexpected EOF") EmptyString)
           [PlainField "n" "1"] "unexpected EOF").
  - repeat constructor.
  - reflexivity.
Defined.

(** X13: [CreateFormFileReader] asks for the empty content type; with a
    parser that rejects the empty string, as [mime.ParseMediaType] does,
    the part it writes has the Content-Disposition header alone, and the
    error returned is that of the reader. *)
Theorem CreateFormFileReader_writes_no_content_type :
  forall (P : mime.Parser) (s b : string) (lp : option multipart.part)
         (fieldname : string) (r : io.Reader) (filename : string),
    mime.ParseMediaType EmptyString = None ->
    sound lp ->
    CreateFormFileReader (builderOn s b lp) fieldname r filename =
      (builderOn
         (s ++ delimiter b (isNone lp) ++
          dispositionLine fieldname (Some (filepath.Base filename)) ++
          CRLF ++ content r)
         b (Some openPart),
       io.final r).
Proof.
  intros P s b lp fieldname r filename Hp Hs. unfold CreateFormFileReader.
  rewrite CreateFormFileReaderWithContentType_Buffer by exact Hs.
  cbn [encodedPart]. rewrite Hp. reflexivity.
Qed.

Lemma CreateFormFileReader_writes_no_content_type_witness :
  CreateFormFileReader (P:=mime.bare) (builderOn EmptyString "6162" None)
      "mask" (sampleReader "MASK") "masks/m.png" =
    (builderOn
       (delimiter "6162" true ++ dispositionLine "mask" (Some "m.png") ++
        CRLF ++ "MASK")
       "6162" (Some openPart),
     None).
Proof.
  apply (CreateFormFileReader_writes_no_content_type mime.bare
           EmptyString "6162" None "mask" (sampleReader "MASK") "masks/m.png");
    reflexivity.
Defined.

(** X14: for a file that has a name, [CreateFormFile] on a buffer writes a
    part with the field name and that name between quotes, both escaped
    as the multipart package does (a backslash before a backslash and a
    double quote, percent encoding for a carriage return and a line feed),
    with the content type [application/octet-stream] and with the bytes of
    the file, and returns the error of reading the file. *)
Theorem CreateFormFile_writes_an_octet_stream_part :
  forall (s b : string) (lp : option multipart.part)
         (fieldname : string) (file : os.File),
    sound lp ->
    os.Name file <> EmptyString ->
    CreateFormFile (builderOn s b lp) fieldname file =
      (builderOn
         (s ++ delimiter b (isNone lp) ++
          "Content-Disposition: form-data; name=" ++ DQ ++
          libEscapeBytes fieldname ++ DQ ++ "; filename=" ++ DQ ++
          libEscapeBytes (os.Name file) ++ DQ ++ CRLF ++
          "Content-Type: application/octet-stream" ++ CRLF ++ CRLF ++
          content (os.contents file))
         b (Some openPart),
       io.final (os.contents file)).
Proof.
  intros s b lp fieldname file Hs Hn.
  rewrite CreateFormFile_Buffer by assumption.
  unfold libDispositionLine, typeLine, builderOn. str_norm. reflexivity.
Qed.

Lemma CreateFormFile_writes_an_octet_stream_part_witness :
  snd (CreateFormFile (builderOn EmptyString "6162" None) "file"
         {| os.Name := "cat.png"; os.contents := sampleReader "PNG1" |}) = None.
Proof.
  rewrite (CreateFormFile_writes_an_octet_stream_part EmptyString "6162" None
             "file" {| os.Name := "cat.png"; os.contents := sampleReader "PNG1" |});
    [reflexivity | reflexivity | discriminate].
Defined.

(** * The endpoints, in full *)

Lemma form_fails_on_buffer (P : mime.Parser) (b : string)
    (before : list Field) (f : Field) (after : list Field) (e : string) :
  Forall readable before ->
  sourceError f = Some e ->
  exists fb : DefaultFormBuilder bytes.Buffer,
    ((fun fb => appendAll fb (before ++ f :: after)%list) >> Close)
      (builderOn EmptyString b None) = (fb, Some e).
Proof.
  intros Hb He. unfold andThen.
  destruct (appendAll_first_failure P b before f after e Hb He)
    as (fb & -> & _).
  now exists fb.
Qed.

Lemma variForm_appendAll `{mime.Parser} (request : ImageVariRequest)
    (fb : DefaultFormBuilder bytes.Buffer) :
  variForm request fb =
    ((fun b => appendAll b (variFields request)) >> Close) fb.
Proof.
  unfold variForm, variFields, andThen.
  cbn [appendAll append_]; repeat destruct_call.
Qed.

(** The single-image endpoint, when its form cannot be completed. *)
Lemma CreateEditImage_aborts (P : mime.Parser) (Ctx Request : Type)
    (c : Client Ctx Request) (ctx : Ctx) (buf : string)
    (request : ImageEditRequest)
    (before : list Field) (f : Field) (after : list Field) (e : string) :
  (forall body, createFormBuilder c body = NewFormBuilder body buf) ->
  editFields request = (before ++ f :: after)%list ->
  Forall readable before ->
  sourceError f = Some e ->
  CreateEditImage c ctx request =
    {| response := zeroImageResponse; err := Some e;
       calls := [CreateFormBuilderCall EmptyString] |}.
Proof.
  intros Hf Hfields Hb He. unfold CreateEditImage. cbv zeta.
  rewrite Hf, NewFormBuilder_builderOn, editForm_appendAll, Hfields.
  destruct (form_fails_on_buffer P (multipart.randomBoundary buf)
              before f after e Hb He) as [fb ->].
  reflexivity.
Qed.

(** X15: when the image of an edit request cannot be read to the end, or
    its mask after a readable image, [CreateEditImage] returns the zero
    response with the error of that reader; it has made a form builder and
    nothing else: no request is built and none is dispatched. *)
Theorem CreateEditImage_aborts_on_a_failing_reader :
  forall (P : mime.Parser) (Ctx Request : Type) (c : Client Ctx Request)
         (ctx : Ctx) (buf : string) (request : ImageEditRequest) (e : string),
    (forall body, createFormBuilder c body = NewFormBuilder body buf) ->
    io.final (ie_Image request) = Some e \/
    (io.final (ie_Image request) = None /\
     exists mask, ie_Mask request = Some mask /\ io.final mask = Some e) ->
    CreateEditImage c ctx request =
      {| response := zeroImageResponse; err := Some e;
         calls := [CreateFormBuilderCall EmptyString] |}.
Proof.
  intros P Ctx Request c ctx buf request e Hf [Hi | [Hi (mask & Hm & He)]].
  - apply (CreateEditImage_aborts P Ctx Request c ctx buf request []
             (TypedReaderField "image" (ie_Image request) EmptyString "image/png")
             (match ie_Mask request with
              | Some mask => [ReaderField "mask" mask EmptyString]
              | None => []
              end ++
              [PlainField "prompt" (ie_Prompt request);
               PlainField "n" (strconv.Itoa (ie_N request));
               PlainField "size" (ie_Size request)] ++
              responseFormatField (ie_ResponseFormat request))%list e);
      [exact Hf | reflexivity | constructor | exact Hi].
  - apply (CreateEditImage_aborts P Ctx Request c ctx buf request
             [TypedReaderField "image" (ie_Image request) EmptyString "image/png"]
             (ReaderField "mask" mask EmptyString)
             ([PlainField "prompt" (ie_Prompt request);
               PlainField "n" (strconv.Itoa (ie_N request));
               PlainField "size" (ie_Size request)] ++
              responseFormatField (ie_ResponseFormat request))%list e);
      [exact Hf | unfold editFields; now rewrite Hm
      | repeat constructor; exact Hi | exact He].
Qed.

Lemma CreateEditImage_aborts_on_a_failing_reader_witness :
  CreateEditImage (P:=mime.bare) (sampleClient "ab") tt
      (withQualityUser "hd" "user-1"
         {| ie_Image := sampleReader "PNG1";
            ie_Mask := Some (failingReader "MA" "unexpected EOF");
            ie_Prompt := "a cat"; ie_Model := "dall-e-2"; ie_N := 1;
            ie_Size := "256x256"; ie_ResponseFormat := EmptyString;
            ie_Quality := EmptyString; ie_User := EmptyString |}) =
    {| response := zeroImageResponse; err := Some "unexpected EOF";
       calls := [CreateFormBuilderCall EmptyString] |}.
Proof.
  apply (CreateEditImage_aborts_on_a_failing_reader mime.bare unit string
           (sampleClient "ab") tt "ab").
  - intro body. reflexivity.
  - right. split; [reflexivity|].
    exists (failingReader "MA" "unexpected EOF"). split; reflexivity.
Defined.

(** X16: with readable sources and builders from [NewFormBuilder],
    [CreateEditImage] builds one request, a POST to the URL of
    [/images/edits] for the model, with the closed form as body and the
    content type of the builder.  If building the request fails, that
    error is returned with the zero response and nothing is dispatched;
    otherwise the request is dispatched once and the response and the
    error of the dispatcher are returned as they come. *)
Theorem CreateEditImage_dispatches_the_closed_form :
  forall (P : mime.Parser) (Ctx Request : Type) (c : Client Ctx Request)
         (ctx : Ctx) (buf : string) (request : ImageEditRequest),
    (forall body, createFormBuilder c body = NewFormBuilder body buf) ->
    Forall readable (editFields request) ->
    let url := fullURL c "/images/edits" [withModel (ie_Model request)] in
    let opts :=
      [withBody (wire (multipart.randomBoundary buf)
                      (map encodedPart (editFields request)) ++
                 terminal (multipart.randomBoundary buf));
       withContentType ("multipart/form-data; boundary=" ++
                        multipart.randomBoundary buf)] in
    CreateEditImage c ctx request =
      match newRequest c ctx "POST" url opts with
      | inr e =>
          {| response := zeroImageResponse; err := Some e;
             calls := [CreateFormBuilderCall EmptyString;
                       NewRequestCall "POST" url opts] |}
      | inl req =>
          {| response := fst (sendRequest c req zeroImageResponse);
             err := snd (sendRequest c req zeroImageResponse);
             calls := [CreateFormBuilderCall EmptyString;
                       NewRequestCall "POST" url opts;
                       SendRequestCall req] |}
      end.
Proof.
  intros P Ctx Request c ctx buf request Hf Hr. cbv zeta.
  unfold CreateEditImage. cbv zeta.
  rewrite Hf, NewFormBuilder_builderOn, editForm_appendAll.
  rewrite form_on_buffer by exact Hr.
  rewrite FormDataContentType_plain by apply randomBoundary_plain.
  cbn [builderOn writer multipart.w multipart.boundary]. unfold MethodPost.
  destruct (newRequest c ctx _ _ _) as [req|e]; [|reflexivity].
  destruct (sendRequest c req zeroImageResponse) as [resp e]. reflexivity.
Qed.

Lemma CreateEditImage_dispatches_the_closed_form_witness :
  err (CreateEditImage (P:=mime.bare) (sampleClient "ab") tt sampleEdit) = None /\
  length (calls (CreateEditImage (P:=mime.bare) (sampleClient "ab") tt
                   sampleEdit)) = 3.
Proof.
  rewrite (CreateEditImage_dispatches_the_closed_form mime.bare unit string
             (sampleClient "ab") tt "ab" sampleEdit).
  - split; reflexivity.
  - intro body. reflexivity.
  - repeat constructor.
Defined.

(** X17: with a readable image and builders from [NewFormBuilder],
    [CreateVariImage] posts to the URL of [/images/variations] a form of
    four parts, in this order: the image, without a content type of its
    own when the parser rejects the empty string, the count, the size and
    the response format, which is written even when it is empty.  A
    request that cannot be built is not dispatched; the result of the
    dispatcher is returned as it comes; [User] plays no part. *)
Theorem CreateVariImage_dispatches_four_parts :
  forall (P : mime.Parser) (Ctx Request : Type) (c : Client Ctx Request)
         (ctx : Ctx) (buf : string) (request : ImageVariRequest) (u : string),
    (forall body, createFormBuilder c body = NewFormBuilder body buf) ->
    io.final (iv_Image request) = None ->
    let b := multipart.randomBoundary buf in
    let url := fullURL c "/images/variations" [withModel (iv_Model request)] in
    let opts :=
      [withBody
         (wire b
            [dispositionLine "image" (Some ".") ++
             typeLine (mime.ParseMediaType EmptyString) ++ CRLF ++
             content (iv_Image request);
             dispositionLine "n" None ++ CRLF ++ strconv.Itoa (iv_N request);
             dispositionLine "size" None ++ CRLF ++ iv_Size request;
             dispositionLine "response_format" None ++ CRLF ++
             iv_ResponseFormat request] ++
          terminal b);
       withContentType ("multipart/form-data; boundary=" ++ b)] in
    CreateVariImage c ctx request =
      match newRequest c ctx "POST" url opts with
      | inr e =>
          {| response := zeroImageResponse; err := Some e;
             calls := [CreateFormBuilderCall EmptyString;
                       NewRequestCall "POST" url opts] |}
      | inl req =>
          {| response := fst (sendRequest c req zeroImageResponse);
             err := snd (sendRequest c req zeroImageResponse);
             calls := [CreateFormBuilderCall EmptyString;
                       NewRequestCall "POST" url opts;
                       SendRequestCall req] |}
      end /\
    CreateVariImage c ctx (withUserVari u request) =
      CreateVariImage c ctx request.
Proof.
  intros P Ctx Request c ctx buf request u Hf Hr. cbv zeta.
  split; [|reflexivity].
  unfold CreateVariImage. cbv zeta.
  rewrite Hf, NewFormBuilder_builderOn, variForm_appendAll.
  rewrite form_on_buffer by (repeat constructor; exact Hr).
  rewrite FormDataContentType_plain by apply randomBoundary_plain.
  cbn [builderOn writer multipart.w multipart.boundary]. unfold MethodPost.
  change (map encodedPart (variFields request)) with
    [dispositionLine "image" (Some ".") ++
     typeLine (mime.ParseMediaType EmptyString) ++ CRLF ++
     content (iv_Image request);
     dispositionLine "n" None ++ CRLF ++ strconv.Itoa (iv_N request);
     dispositionLine "size" None ++ CRLF ++ iv_Size request;
     dispositionLine "response_format" None ++ CRLF ++
     iv_ResponseFormat request].
  destruct (newRequest c ctx _ _ _) as [req|e]; [|reflexivity].
  destruct (sendRequest c req zeroImageResponse) as [resp e]. reflexivity.
Qed.

Lemma CreateVariImage_dispatches_four_parts_witness :
  err (CreateVariImage (P:=mime.bare) (sampleClient "ab") tt sampleVari) = None /\
  length (calls (CreateVariImage (P:=mime.bare) (sampleClient "ab") tt
                   sampleVari)) = 3.
Proof.
  destruct (CreateVariImage_dispatches_four_parts mime.bare unit string
              (sampleClient "ab") tt "ab" sampleVari "user-2"
              (fun body => eq_refl) eq_refl) as [-> _].
  split; reflexivity.
Defined.

(** X18: when the image of a variation request cannot be read to the end,
    [CreateVariImage] returns the zero response with the error of the
    reader and neither builds nor dispatches a request. *)
Theorem CreateVariImage_aborts_on_a_failing_reader :
  forall (P : mime.Parser) (Ctx Request : Type) (c : Client Ctx Request)
         (ctx : Ctx) (buf : string) (request : ImageVariRequest) (e : string),
    (forall body, createFormBuilder c body = NewFormBuilder body buf) ->
    io.final (iv_Image request) = Some e ->
    CreateVariImage c ctx request =
      {| response := zeroImageResponse; err := Some e;
         calls := [CreateFormBuilderCall EmptyString] |}.
Proof.
  intros P Ctx Request c ctx buf request e Hf He.
  unfold CreateVariImage. cbv zeta.
  rewrite Hf, NewFormBuilder_builderOn, variForm_appendAll.
  destruct (form_fails_on_buffer P (multipart.randomBoundary buf) []
              (ReaderField "image" (iv_Image request) EmptyString)
              [PlainField "n" (strconv.Itoa (iv_N request));
               PlainField "size" (iv_Size request);
               PlainField "response_format" (iv_ResponseFormat request)]
              e (Forall_nil _) He) as [fb Hfb].
  change (variFields request) with
    ([] ++ ReaderField "image" (iv_Image request) EmptyString ::
     [PlainField "n" (strconv.Itoa (iv_N request));
      PlainField "size" (iv_Size request);
      PlainField "response_format" (iv_ResponseFormat request)])%list.
  rewrite Hfb. reflexivity.
Qed.

Lemma CreateVariImage_aborts_on_a_failing_reader_witness :
  CreateVariImage (P:=mime.bare) (sampleClient "ab") tt
      (withUserVari "user-1"
         {| iv_Image := failingReader "PN" "unexpected EOF";
            iv_Model := "dall-e-2"; iv_N := 1; iv_Size := "256x256";
            iv_ResponseFormat := "url"; iv_User := EmptyString |}) =
    {| response := zeroImageResponse; err := Some "unexpected EOF";
       calls := [CreateFormBuilderCall EmptyString] |}.
Proof.
  apply (CreateVariImage_aborts_on_a_failing_reader mime.bare unit string
           (sampleClient "ab") tt "ab").
  - intro body. reflexivity.
  - reflexivity.
Defined.

Lemma readable_imageFields (images : list io.Reader) :
  Forall (fun image => io.final image = None) images ->
  Forall readable (imageFields images).
Proof.
  induction 1 as [|image images Hi _ IH]; [constructor|].
  cbn [imageFields map]. constructor; [exact Hi | exact IH].
Qed.

(** The several-image endpoint, when its form cannot be completed. *)
Lemma multiEditForm_fails (P : mime.Parser) (b : string)
    (request : MultiImageEditRequest)
    (before : list io.Reader) (r : io.Reader) (after : list io.Reader)
    (e : string) :
  mie_Images request = (before ++ r :: after)%list ->
  Forall (fun image => io.final image = None) before ->
  io.final r = Some e ->
  exists fb : DefaultFormBuilder bytes.Buffer,
    multiEditForm request (builderOn EmptyString b None) = (fb, Some e).
Proof.
  intros Hi Hb He. rewrite multiEditForm_appendAll, Hi.
  unfold imageFields. rewrite map_app. cbn [map]. rewrite <- app_assoc.
  cbn [app].
  apply form_fails_on_buffer; [|exact He].
  now apply readable_imageFields.
Qed.

(** X19: when one of the images of a multi-image request cannot be read
    to the end, the images before it being readable, [CreateMultiEditImage]
    returns the zero response with the error of that reader and neither
    builds nor dispatches a request; this holds for one image as for
    several. *)
Theorem CreateMultiEditImage_aborts_on_a_failing_image :
  forall (P : mime.Parser) (Ctx Request : Type) (c : Client Ctx Request)
         (ctx : Ctx) (buf : string) (request : MultiImageEditRequest)
         (before : list io.Reader) (r : io.Reader) (after : list io.Reader)
         (e : string),
    (forall body, createFormBuilder c body = NewFormBuilder body buf) ->
    mie_Images request = (before ++ r :: after)%list ->
    Forall (fun image => io.final image = None) before ->
    io.final r = Some e ->
    CreateMultiEditImage c ctx request =
      {| response := zeroImageResponse; err := Some e;
         calls := [CreateFormBuilderCall EmptyString] |}.
Proof.
  intros P Ctx Request c ctx buf request before r after e Hf Hi Hb He.
  destruct (multiEditForm_fails P (multipart.randomBoundary buf) request
              before r after e Hi Hb He) as [fb Hfb].
  unfold CreateMultiEditImage. rewrite Hi.
  destruct before as [|b0 [|b1 before]]; [destruct after as [|a after]| |];
    cbn [app]; cbv zeta.
  - apply (CreateEditImage_aborts P Ctx Request c ctx buf _ []
             (TypedReaderField "image" r EmptyString "image/png")
             ([PlainField "prompt" (mie_Prompt request);
               PlainField "n" (strconv.Itoa (mie_N request));
               PlainField "size" (mie_Size request)] ++
              responseFormatField (mie_ResponseFormat request))%list e);
      [exact Hf | reflexivity | constructor | exact He].
  - rewrite Hf, NewFormBuilder_builderOn, Hfb. reflexivity.
  - rewrite Hf, NewFormBuilder_builderOn, Hfb. reflexivity.
  - rewrite Hf, NewFormBuilder_builderOn, Hfb. reflexivity.
Qed.

Lemma CreateMultiEditImage_aborts_on_a_failing_image_witness :
  CreateMultiEditImage (P:=mime.bare) (sampleClient "ab") tt
      (withQualityUserMulti "high" "user-1"
         {| mie_Images := [sampleReader "PNG1";
                           failingReader "PN" "unexpected EOF";
                           sampleReader "PNG3"];
            mie_Prompt := "a cat"; mie_Model := "gpt-image-1"; mie_N := 1;
            mie_Size := "1024x1024"; mie_ResponseFormat := EmptyString;
            mie_Quality := EmptyString; mie_User := EmptyString |}) =
    {| response := zeroImageResponse; err := Some "unexpected EOF";
       calls := [CreateFormBuilderCall EmptyString] |}.
Proof.
  apply (CreateMultiEditImage_aborts_on_a_failing_image mime.bare unit string
           (sampleClient "ab") tt "ab" _
           [sampleReader "PNG1"] (failingReader "PN" "unexpected EOF")
           [sampleReader "PNG3"]).
  - intro body. reflexivity.
  - reflexivity.
  - repeat constructor.
  - reflexivity.
Defined.

(** * The count *)

(** X20: the text that the endpoints write in the field [n] is a decimal
    number that reads back as the count of the request, so that different
    counts give different fields. *)
Theorem Itoa_reads_back :
  forall n m : Z,
    parseInt (strconv.Itoa n) = Some n /\
    (strconv.Itoa n = strconv.Itoa m -> n = m).
Proof.
  assert (Hback : forall n, parseInt (strconv.Itoa n) = Some n).
  { intro n. unfold parseInt, strconv.Itoa.
    rewrite NilZero.isi.
    - cbn [option_map]. now rewrite DecimalZ.of_to.
    - destruct n as [|p|p]; try discriminate.
      intros [= E]. now apply (Unsigned.to_uint_nonnil p).
    - destruct n as [|p|p]; try discriminate.
      intros [= E]. now apply (Unsigned.to_uint_nonnil p). }
  intros n m. split; [apply Hback|].
  intro E. pose proof (Hback n) as Hn. rewrite E, Hback in Hn. congruence.
Qed.

(** * The several-image endpoint, in full *)

(** X21: with readable images and builders from [NewFormBuilder],
    [CreateMultiEditImage] on a request that has images builds one
    request, a POST to the URL of [/images/edits] for the model, whose
    body is the closed form of its fields: one part for each image, in
    the order of the request, called [image] when there is one image and
    [image[]] when there are several, then the prompt, the count, the
    size and the response format if it is not empty.  A request that
    cannot be built is not dispatched; otherwise the result of the
    dispatcher is returned as it comes. *)
Theorem CreateMultiEditImage_dispatches_the_closed_form :
  forall (P : mime.Parser) (Ctx Request : Type) (c : Client Ctx Request)
         (ctx : Ctx) (buf : string) (request : MultiImageEditRequest),
    (forall body, createFormBuilder c body = NewFormBuilder body buf) ->
    mie_Images request <> [] ->
    Forall (fun image => io.final image = None) (mie_Images request) ->
    let url := fullURL c "/images/edits" [withModel (mie_Model request)] in
    let opts :=
      [withBody (wire (multipart.randomBoundary buf)
                      (map encodedPart (multiEditFields request)) ++
                 terminal (multipart.randomBoundary buf));
       withContentType ("multipart/form-data; boundary=" ++
                        multipart.randomBoundary buf)] in
    CreateMultiEditImage c ctx request =
      match newRequest c ctx "POST" url opts with
      | inr e =>
          {| response := zeroImageResponse; err := Some e;
             calls := [CreateFormBuilderCall EmptyString;
                       NewRequestCall "POST" url opts] |}
      | inl req =>
          {| response := fst (sendRequest c req zeroImageResponse);
             err := snd (sendRequest c req zeroImageResponse);
             calls := [CreateFormBuilderCall EmptyString;
                       NewRequestCall "POST" url opts;
                       SendRequestCall req] |}
      end.
Proof.
  intros P Ctx Request c ctx buf request Hf Hne Hi. cbv zeta.
  assert (Hr : Forall readable (multiEditFields request)).
  { unfold multiEditFields.
    assert (Hrest : Forall readable
              ([PlainField "prompt" (mie_Prompt request);
                PlainField "n" (strconv.Itoa (mie_N request));
                PlainField "size" (mie_Size request)] ++
               responseFormatField (mie_ResponseFormat request))%list).
    { unfold responseFormatField.
      destruct (String.eqb (mie_ResponseFormat request) EmptyString);
        repeat constructor. }
    destruct (mie_Images request) as [|image [|image' images]].
    - contradiction.
    - inversion Hi; subst. apply Forall_app. split; [|exact Hrest].
      repeat constructor. assumption.
    - apply Forall_app. split; [|exact Hrest].
      now apply readable_imageFields. }
  pose proof (multiEditForm_appendAll request) as Hform.
  unfold CreateMultiEditImage, multiEditFields in *.
  destruct (mie_Images request) as [|image [|image' images]];
    [contradiction| |]; cbv zeta.
  - unfold CreateEditImage. cbv zeta.
    rewrite Hf, NewFormBuilder_builderOn, editForm_appendAll.
    rewrite form_on_buffer by exact Hr.
    rewrite FormDataContentType_plain by apply randomBoundary_plain.
    cbn [builderOn writer multipart.w multipart.boundary]. unfold MethodPost.
    destruct (newRequest c ctx _ _ _) as [req|e]; [|reflexivity].
    destruct (sendRequest c req zeroImageResponse) as [resp e]. reflexivity.
  - rewrite Hf, NewFormBuilder_builderOn, Hform.
    rewrite form_on_buffer by exact Hr.
    rewrite FormDataContentType_plain by apply randomBoundary_plain.
    cbn [builderOn writer multipart.w multipart.boundary]. unfold MethodPost.
    destruct (newRequest c ctx _ _ _) as [req|e]; [|reflexivity].
    destruct (sendRequest c req zeroImageResponse) as [resp e]. reflexivity.
Qed.

Lemma CreateMultiEditImage_dispatches_the_closed_form_witness :
  err (CreateMultiEditImage (P:=mime.bare) (sampleClient "ab") tt sampleMulti) =
    None /\
  length (calls (CreateMultiEditImage (P:=mime.bare) (sampleClient "ab") tt
                   sampleMulti)) = 3.
Proof.
  rewrite (CreateMultiEditImage_dispatches_the_closed_form mime.bare unit string
             (sampleClient "ab") tt "ab" sampleMulti).
  - split; reflexivity.
  - intro body. reflexivity.
  - discriminate.
  - repeat constructor.
Defined.

Lemma escaped_name_is_read_back_witness :
  scanQuoted (escapeQuotes ("a" ++ DQ ++ "b" ++ BS ++ "c") ++ DQ ++ "; x=1") =
    Some ("a" ++ DQ ++ "b" ++ BS ++ "c", "; x=1").
Proof.
  apply (escaped_name_is_read_back ("a" ++ DQ ++ "b" ++ BS ++ "c")
           EmptyString "; x=1").
Defined.

Lemma Itoa_reads_back_witness : parseInt (strconv.Itoa (-12)) = Some (-12)%Z.
Proof.
  apply (Itoa_reads_back (-12) 0).
Defined.

(** * Names with line breaks on the library path *)

(** A plain field whose name holds a carriage return and a line feed: the
    multipart package writes them percent-encoded. *)
Example WriteField_encodes_line_breaks :
  WriteField (NewFormBuilder (W:=bytes.Buffer) EmptyString "ab")
      ("pro" ++ CRLF ++ "mpt") "a cat" =
    (builderOn
       ("--6162" ++ CRLF ++
        "Content-Disposition: form-data; name=" ++ DQ ++ "pro%0D%0Ampt" ++ DQ ++
        CRLF ++ CRLF ++ "a cat")
       "6162" (Some openPart),
     None).
Proof. vm_compute. reflexivity. Qed.

(** A file handle whose name holds a line feed. *)
Example CreateFormFile_encodes_line_breaks :
  CreateFormFile (NewFormBuilder (W:=bytes.Buffer) EmptyString "ab") "file"
      {| os.Name := "a" ++ String "010"%char "b.png";
         os.contents := sampleReader "PNG1" |} =
    (builderOn
       ("--6162" ++ CRLF ++
        "Content-Disposition: form-data; name=" ++ DQ ++ "file" ++ DQ ++
        "; filename=" ++ DQ ++ "a%0Ab.png" ++ DQ ++ CRLF ++
        "Content-Type: application/octet-stream" ++ CRLF ++ CRLF ++ "PNG1")
       "6162" (Some openPart),
     None).
Proof. vm_compute. reflexivity. Qed.
